(** * gamejolt.py: the request signing and dispatch pipeline of GameJoltAPI

    A shallow embedding of [src/gamejolt.py].  Python [str] values are
    modelled as [string] (code points 0..255, one per character), Python
    objects that the program mutates live in an explicit store, and a method
    is a computation in a state-and-exception monad over that store. *)

From Stdlib Require Import ZArith List Ascii String Bool Lia.
From stdpp Require Import base option list gmap strings pretty.
Import ListNotations.

Local Open Scope string_scope.
Local Open Scope Z_scope.

(** ** SHA-1 ([hashlib.sha1]), after FIPS 180-4; words are 32-bit [Z]. *)

Module SHA1.

Definition mask32 : Z := 0xFFFFFFFF.
Definition wrap (x : Z) : Z := Z.land x mask32.
Definition add32 (x y : Z) : Z := wrap (x + y).
Definition rotl (n x : Z) : Z :=
  wrap (Z.lor (Z.shiftl x n) (Z.shiftr x (32 - n))).
Definition not32 (x : Z) : Z := Z.lxor x mask32.

Definition Ch (x y z : Z) : Z := Z.lxor (Z.land x y) (Z.land (not32 x) z).
Definition Parity (x y z : Z) : Z := Z.lxor (Z.lxor x y) z.
Definition Maj (x y z : Z) : Z :=
  Z.lxor (Z.lxor (Z.land x y) (Z.land x z)) (Z.land y z).

(** Round function and constant of round [t] (0 <= t < 80). *)
Definition f (t : nat) (x y z : Z) : Z :=
  if (t <? 20)%nat then Ch x y z
  else if (t <? 40)%nat then Parity x y z
  else if (t <? 60)%nat then Maj x y z
  else Parity x y z.

Definition K (t : nat) : Z :=
  if (t <? 20)%nat then 0x5a827999
  else if (t <? 40)%nat then 0x6ed9eba1
  else if (t <? 60)%nat then 0x8f1bbcdc
  else 0xca62c1d6.

Definition H0 : list Z :=
  [0x67452301; 0xefcdab89; 0x98badcfe; 0x10325476; 0xc3d2e1f0].

(** Big-endian serialisation of the message length and of words. *)
Fixpoint be_bytes (n : nat) (x : Z) : list Z :=
  match n with
  | O => []
  | S n' => Z.land (Z.shiftr x (8 * Z.of_nat n')) 255 :: be_bytes n' x
  end.

Fixpoint be_word (bs : list Z) (acc : Z) : Z :=
  match bs with
  | [] => acc
  | b :: bs' => be_word bs' (Z.lor (Z.shiftl acc 8) b)
  end.

(** Padding: 0x80, then zeros up to 56 mod 64, then the bit length. *)
Definition pad (msg : list Z) : list Z :=
  let len := Z.of_nat (length msg) in
  let k := (55 - len) mod 64 in
  msg ++ [128] ++ repeat 0 (Z.to_nat k) ++ be_bytes 8 (8 * len).

Fixpoint words (n : nat) (bs : list Z) : list Z :=
  match n with
  | O => []
  | S n' => be_word (take 4 bs) 0 :: words n' (drop 4 bs)
  end.

(** The 80 rounds over one block.  [w] is the sliding window of the
    sixteen most recent schedule words, oldest first. *)
Definition next_w (w : list Z) : Z :=
  rotl 1 (Z.lxor (Z.lxor (Z.lxor (nth 13 w 0) (nth 8 w 0)) (nth 2 w 0))
                 (nth 0 w 0)).

Fixpoint rounds (n t : nat) (w : list Z) (a b c d e : Z) : list Z :=
  match n with
  | O => [a; b; c; d; e]
  | S n' =>
      let wt := nth 0 w 0 in
      let T := add32 (add32 (add32 (add32 (rotl 5 a) (f t b c d)) e) (K t)) wt in
      rounds n' (S t) (drop 1 w ++ [next_w w]) T a (rotl 30 b) c d
  end.

Definition compress (h : list Z) (block : list Z) : list Z :=
  let a := nth 0 h 0 in let b := nth 1 h 0 in let c := nth 2 h 0 in
  let d := nth 3 h 0 in let e := nth 4 h 0 in
  let r := rounds 80 0 (words 16 block) a b c d e in
  [add32 a (nth 0 r 0); add32 b (nth 1 r 0); add32 c (nth 2 r 0);
   add32 d (nth 3 r 0); add32 e (nth 4 r 0)].

Fixpoint blocks (n : nat) (h : list Z) (bs : list Z) : list Z :=
  match n with
  | O => h
  | S n' => blocks n' (compress h (take 64 bs)) (drop 64 bs)
  end.

(** The 20-byte digest of a message given as bytes. *)
Definition digest (msg : list Z) : list Z :=
  let p := pad msg in
  let h := blocks (length p / 64) H0 p in
  be_bytes 4 (nth 0 h 0) ++ be_bytes 4 (nth 1 h 0) ++ be_bytes 4 (nth 2 h 0)
    ++ be_bytes 4 (nth 3 h 0) ++ be_bytes 4 (nth 4 h 0).

(** [hexdigest]: two lowercase hexadecimal digits per byte. *)
Definition hexdigit (x : Z) : ascii :=
  let n := Z.to_nat (Z.land x 15) in
  if (n <? 10)%nat then ascii_of_nat (48 + n) else ascii_of_nat (87 + n).

Fixpoint hex (bs : list Z) : string :=
  match bs with
  | [] => EmptyString
  | b :: bs' => String (hexdigit (Z.shiftr b 4)) (String (hexdigit b) (hex bs'))
  end.

Definition hexdigest (msg : list Z) : string := hex (digest msg).

End SHA1.

(** ** Python values used as request parameters *)

(** The scalar values the endpoint builders receive and store in the
    parameter dictionary ([float] arguments are outside the model). *)
Inductive pyval : Type :=
| PNone
| PBool (b : bool)
| PInt (z : Z)
| PStr (s : string).

Global Instance pyval_eq_dec : EqDecision pyval.
Proof. solve_decision. Defined.

(** Truth value testing: [if x:], [x and y], [x or y]. *)
Definition truthy (v : pyval) : bool :=
  match v with
  | PNone => false
  | PBool b => b
  | PInt z => negb (z =? 0)
  | PStr s => negb (String.eqb s "")
  end.

Definition py_or (x y : pyval) : pyval := if truthy x then x else y.
Definition py_and (x y : pyval) : pyval := if truthy x then y else x.
Definition py_not (x : pyval) : pyval := PBool (negb (truthy x)).

(** [str(v)]. *)
Definition py_str (v : pyval) : string :=
  match v with
  | PNone => "None"
  | PBool true => "True"
  | PBool false => "False"
  | PInt z => pretty z
  | PStr s => s
  end.

(** [x in (s1, ..., sn)] for a tuple of string literals: some element
    compares equal to [x]; only a [str] equals a [str]. *)
Definition py_in (x : pyval) (t : list string) : bool :=
  existsb (fun s => match x with PStr y => String.eqb y s | _ => false end) t.

(** ** Dictionaries: insertion-ordered, keyed by strings *)

Abbreviation dict := (list (string * pyval)).

Fixpoint dict_get (k : string) (d : dict) : option pyval :=
  match d with
  | [] => None
  | (k', v) :: d' => if String.eqb k' k then Some v else dict_get k d'
  end.

(** [d[k] = v]: an existing key keeps its position, a new key goes last. *)
Fixpoint dict_set (k : string) (v : pyval) (d : dict) : dict :=
  match d with
  | [] => [(k, v)]
  | (k', v') :: d' =>
      if String.eqb k' k then (k', v) :: d' else (k', v') :: dict_set k v d'
  end.

(** ** [urllib.parse.urlencode] with its default [quote_via=quote_plus] *)

Definition code (a : ascii) : Z := Z.of_nat (nat_of_ascii a).

Definition codes (s : string) : list Z := map code (list_ascii_of_string s).

(** UTF-8 encoding of a string of code points below 256. *)
Definition utf8_char (a : ascii) : list Z :=
  let c := code a in
  if c <? 128 then [c]
  else [Z.lor 0xC0 (Z.shiftr c 6); Z.lor 0x80 (Z.land c 0x3F)].

Definition utf8 (s : string) : list Z :=
  flat_map utf8_char (list_ascii_of_string s).

(** The characters [quote] never escapes: letters, digits and [_.-~]. *)
Definition always_safe (c : Z) : bool :=
  ((65 <=? c) && (c <=? 90)) || ((97 <=? c) && (c <=? 122))
  || ((48 <=? c) && (c <=? 57))
  || (c =? 95) || (c =? 46) || (c =? 45) || (c =? 126).

Definition HEXDIGIT (x : Z) : ascii :=
  let n := Z.to_nat (Z.land x 15) in
  if (n <? 10)%nat then ascii_of_nat (48 + n) else ascii_of_nat (55 + n).

Definition quote_byte (safe : list Z) (c : Z) : string :=
  if always_safe c || existsb (Z.eqb c) safe
  then String (ascii_of_nat (Z.to_nat c)) ""
  else String "%" (String (HEXDIGIT (Z.shiftr c 4)) (String (HEXDIGIT c) "")).

Definition quote (safe : list Z) (s : string) : string :=
  fold_right (fun c r => quote_byte safe c +:+ r) "" (utf8 s).

Fixpoint replace_space (s : string) : string :=
  match s with
  | EmptyString => EmptyString
  | String a s' =>
      String (if Ascii.eqb a " " then "+"%char else a) (replace_space s')
  end.

Fixpoint has_char (a : ascii) (s : string) : bool :=
  match s with
  | EmptyString => false
  | String b s' => Ascii.eqb a b || has_char a s'
  end.

Definition quote_plus (s : string) : string :=
  if has_char " " s then replace_space (quote [32] s) else quote [] s.

Fixpoint join (sep : string) (l : list string) : string :=
  match l with
  | [] => ""
  | [x] => x
  | x :: l' => x +:+ sep +:+ join sep l'
  end.

Definition urlencode (query : dict) : string :=
  join "&" (map (fun kv => quote_plus kv.1 +:+ "=" +:+ quote_plus (py_str kv.2))
                query).

(** ** Exceptions *)

(** Instances of Python's [Exception]: the class and what [str(e)] gives.
    [LibraryError] stands for the [Exception] subclasses that the transport
    and the JSON decoder raise ([URLError], [HTTPError], [JSONDecodeError],
    [OSError], ...). *)
Inductive exn_class : Type :=
| AssertionError
| UnicodeEncodeError
| KeyError
| TypeError
| LibraryError (name : string).

Record exn : Type := Exn { exn_type : exn_class; exn_str : string }.

Inductive outcome (A : Type) : Type :=
| Return (a : A)
| Raise (e : exn).
Arguments Return {A} a.
Arguments Raise {A} e.

Definition obind {A B} (x : outcome A) (k : A -> outcome B) : outcome B :=
  match x with
  | Return a => k a
  | Raise e => Raise e
  end.

(** [try: body  except Exception as e: handler(e)]. *)
Definition try_except {A} (body : outcome A) (handler : exn -> outcome A)
  : outcome A :=
  match body with
  | Return a => Return a
  | Raise e => handler e
  end.

(** ** [bytearray(s, encoding='ascii')] *)

Definition is_ascii (s : string) : bool :=
  forallb (fun c => c <? 128) (codes s).

(** Number of characters at the head of [l] that the codec cannot encode. *)
Fixpoint bad_run (l : list Z) : nat :=
  match l with
  | [] => O
  | c :: l' => if c <? 128 then O else S (bad_run l')
  end.

(** Position of the first character that the codec cannot encode, the
    position after the run of such characters that starts there, and that
    character; [i] is the position of the head of [l]. *)
Fixpoint first_bad (i : nat) (l : list Z) : option (nat * nat * Z) :=
  match l with
  | [] => None
  | c :: l' =>
      if c <? 128 then first_bad (S i) l'
      else Some (i, (i + 1 + bad_run l')%nat, c)
  end.

Definition ascii_error (start stop : nat) (c : Z) : exn :=
  Exn UnicodeEncodeError
    (if (stop =? start + 1)%nat
     then "'ascii' codec can't encode character '\x"
          +:+ String (SHA1.hexdigit (Z.shiftr c 4)) (String (SHA1.hexdigit c) "")
          +:+ "' in position " +:+ pretty start
          +:+ ": ordinal not in range(128)"
     else "'ascii' codec can't encode characters in position "
          +:+ pretty start +:+ "-" +:+ pretty (stop - 1)%nat
          +:+ ": ordinal not in range(128)").

Definition bytearray_ascii (s : string) : outcome (list Z) :=
  match first_bad 0 (codes s) with
  | None => Return (codes s)
  | Some (start, stop, c) => Raise (ascii_error start stop c)
  end.

(** ** [functools.lru_cache]: a bounded least-recently-used memo table *)

Module LRU.
Section table.
Context {K V : Type} `{EqDecision K}.

(** Entries, most recently used first. *)
Definition t : Type := list (K * V).

Fixpoint find (k : K) (c : t) : option V :=
  match c with
  | [] => None
  | (k', v) :: c' => if decide (k' = k) then Some v else find k c'
  end.

Fixpoint remove (k : K) (c : t) : t :=
  match c with
  | [] => []
  | (k', v) :: c' => if decide (k' = k) then c' else (k', v) :: remove k c'
  end.

(** A hit moves the entry to the front. *)
Definition touch (k : K) (v : V) (c : t) : t := (k, v) :: remove k c.

(** A miss stores the new result; a full table first drops its oldest
    entry. *)
Definition store (maxsize : nat) (k : K) (v : V) (c : t) : t :=
  match find k c with
  | Some _ => c
  | None =>
      if (maxsize <=? length c)%nat then (k, v) :: removelast c
      else (k, v) :: c
  end.
End table.
End LRU.

(** ** The store: client objects, dictionaries, the memo table *)

Definition loc : Type := positive.

(** [ProcessPoolExecutor]: the pending calls [_get_response(signed_url)],
    in submission order. *)
Record Executor : Type := mkExecutor {
  max_workers : nat;
  work_queue : list string
}.

(** A [Future] names the submitted call by its position in the queue. *)
Definition Future : Type := nat.

Record GameJoltAPI : Type := mkAPI {
  _game_id : pyval;
  _private_key : string;
  username : pyval;
  token : pyval;
  _base_url : string;
  _values : loc;
  _executor : Executor
}.

Global Instance GameJoltAPI_inhabited : Inhabited GameJoltAPI :=
  populate (mkAPI PNone "" PNone PNone "" 1%positive (mkExecutor 0 [])).

Record state : Type := mkState {
  objects : gmap loc GameJoltAPI;
  dicts : gmap loc dict;
  (** the table of [_encode_signed_url], one per class, keyed by the
      arguments [(self, url)] *)
  signed_urls : list ((loc * string) * string)
}.

Definition set_objects (o : gmap loc GameJoltAPI) (st : state) : state :=
  mkState o (dicts st) (signed_urls st).
Definition set_dicts (d : gmap loc dict) (st : state) : state :=
  mkState (objects st) d (signed_urls st).
Definition set_signed_urls (c : list ((loc * string) * string)) (st : state)
  : state :=
  mkState (objects st) (dicts st) c.

(** ** Computations: state passing with exceptions *)

Definition M (A : Type) : Type := state -> outcome A * state.

Global Instance M_ret : MRet M := fun A a st => (Return a, st).
Global Instance M_bind : MBind M := fun A B k m st =>
  match m st with
  | (Return a, st') => k a st'
  | (Raise e, st') => (Raise e, st')
  end.

Definition lift {A} (x : outcome A) : M A := fun st => (x, st).
Definition raise {A} (e : exn) : M A := lift (Raise e).

(** [assert cond]. *)
Definition py_assert (cond : bool) : M unit :=
  if cond then mret tt else raise (Exn AssertionError "").

(** [self.<field>]; a reference that is not in the store reads as the
    default object. *)
Definition getattr {A} (self : loc) (field : GameJoltAPI -> A) : M A :=
  fun st => (Return (field (objects st !!! self)), st).

(** [d.copy()], [d[k] = v] and reading [d] through a reference. *)
Definition dict_copy (d : loc) : M loc := fun st =>
  let l := fresh (dom (dicts st)) in
  (Return l, set_dicts (<[l := dicts st !!! d]> (dicts st)) st).

Definition dict_setitem (d : loc) (k : string) (v : pyval) : M unit := fun st =>
  (Return tt, set_dicts (<[d := dict_set k v (dicts st !!! d)]> (dicts st)) st).

Definition dict_items (d : loc) : M dict := fun st =>
  (Return (dicts st !!! d), st).

(** [@lru_cache(maxsize)] around a method of two arguments. *)
Definition lru_cache (maxsize : nat) (user_function : loc -> string -> M string)
  (self : loc) (url : string) : M string := fun st =>
  match LRU.find (self, url) (signed_urls st) with
  | Some result =>
      (Return result,
       set_signed_urls (LRU.touch (self, url) result (signed_urls st)) st)
  | None =>
      match user_function self url st with
      | (Return result, st') =>
          (Return result,
           set_signed_urls
             (LRU.store maxsize (self, url) result (signed_urls st')) st')
      | (Raise e, st') => (Raise e, st')
      end
  end.

(** [self._executor.submit(self._get_response, signed_url)]. *)
Definition executor_submit (self : loc) (signed_url : string) : M Future :=
  fun st =>
    let c := objects st !!! self in
    let ex := _executor c in
    let c' := mkAPI (_game_id c) (_private_key c) (username c) (token c)
                (_base_url c) (_values c)
                (mkExecutor (max_workers ex) (work_queue ex ++ [signed_url])) in
    (Return (length (work_queue ex)), set_objects (<[self := c']> (objects st)) st).

(** ** Decoded response bodies ([json.loads]) *)

#[local] Set Warnings "-register-all".
Inductive json : Type :=
| JNull
| JBool (b : bool)
| JInt (z : Z)
| JFloat (literal : string)
| JStr (s : string)
| JList (l : list json)
| JDict (d : list (string * json)).

#[local] Set Warnings "register-all".

Fixpoint json_get (k : string) (d : list (string * json)) : option json :=
  match d with
  | [] => None
  | (k', v) :: d' => if String.eqb k' k then Some v else json_get k d'
  end.

(** [obj[key]] for a string key. *)
Definition getitem (obj : json) (key : string) : outcome json :=
  match obj with
  | JDict d =>
      match json_get key d with
      | Some v => Return v
      | None => Raise (Exn KeyError ("'" +:+ key +:+ "'"))
      end
  | JList _ =>
      Raise (Exn TypeError "list indices must be integers or slices, not str")
  | JStr _ => Raise (Exn TypeError "string indices must be integers, not 'str'")
  | JNull => Raise (Exn TypeError "'NoneType' object is not subscriptable")
  | JBool _ => Raise (Exn TypeError "'bool' object is not subscriptable")
  | JInt _ => Raise (Exn TypeError "'int' object is not subscriptable")
  | JFloat _ => Raise (Exn TypeError "'float' object is not subscriptable")
  end.

(** ** class GameJoltAPI *)

Section GameJoltAPI.

(** Library calls whose results the program only passes on:
    [urllib.parse.urljoin], [urllib.request.urlopen] and the [read] of
    the response it returns, and [json.loads]. *)
Variable _urljoin : string -> string -> string.
Variable http_response : Type.
Variable _urlopen : string -> outcome http_response.
Variable read : http_response -> outcome (list Z).
Variable _json_loads : list Z -> outcome json.

(** [GameJoltAPI(game_id, private_key, username, token)]: the object is
    allocated, then [__init__] sets its fields. *)
Definition __init__ (self : loc) (game_id : pyval) (private_key : string)
  (username token : pyval) : M unit := fun st =>
  let values := fresh (dom (dicts st)) in
  let c := mkAPI game_id private_key username token
             "http://api.gamejolt.com/api/game/v1/" values
             (mkExecutor 1 []) in
  (Return tt,
   mkState (<[self := c]> (objects st))
     (<[values := [("format", PStr "json"); ("game_id", game_id)]]> (dicts st))
     (signed_urls st)).

Definition new (game_id : pyval) (private_key : string)
  (username token : pyval) : M loc := fun st =>
  let self := fresh (dom (objects st)) in
  (__init__ self game_id private_key username token;; mret self) st.

Definition _encode_signed_url_body (self : loc) (url : string) : M string :=
  private_key ← getattr self _private_key;
  url_bytes ← lift (bytearray_ascii (url +:+ private_key));
  let signature := SHA1.hexdigest url_bytes in
  let parameter := urlencode [("signature", PStr signature)] in
  mret (url +:+ "&" +:+ parameter).

Definition _encode_signed_url : loc -> string -> M string :=
  lru_cache 128 _encode_signed_url_body.

Definition _submit (self : loc) (endpoint : string) (values : loc) : M Future :=
  items ← dict_items values;
  let url := endpoint +:+ "?" +:+ urlencode items in
  signed_url ← _encode_signed_url self url;
  executor_submit self signed_url.

Definition _get_response (signed_url : string) : outcome json :=
  try_except
    (obind (_urlopen signed_url) (fun http_response =>
     obind (read http_response) (fun body =>
     obind (_json_loads body) (fun decoded =>
     obind (getitem decoded "response") (fun response =>
     Return response)))))
    (fun e => Return (JDict [("success", JStr "false"); ("error", JStr (exn_str e))])).

(** *** Endpoint builders *)

(** [if cond: body] for a statement that returns nothing. *)
Definition when (cond : bool) (body : M unit) : M unit :=
  if cond then body else mret tt.

Definition session_open (self : loc) : M Future :=
  base_url ← getattr self _base_url;
  let endpoint := _urljoin base_url "sessions/open/" in
  values ← getattr self _values ≫= dict_copy;
  username_ ← getattr self username;
  dict_setitem values "username" username_;;
  token_ ← getattr self token;
  dict_setitem values "user_token" token_;;
  _submit self endpoint values.

Definition session_ping (self : loc) (idle : pyval) : M Future :=
  base_url ← getattr self _base_url;
  let endpoint := _urljoin base_url "sessions/ping/" in
  values ← getattr self _values ≫= dict_copy;
  username_ ← getattr self username;
  dict_setitem values "username" username_;;
  token_ ← getattr self token;
  dict_setitem values "user_token" token_;;
  (if truthy idle
   then dict_setitem values "status" (PStr "idle")
   else dict_setitem values "status" (PStr "active"));;
  _submit self endpoint values.

Definition session_close (self : loc) : M Future :=
  base_url ← getattr self _base_url;
  let endpoint := _urljoin base_url "sessions/close/" in
  values ← getattr self _values ≫= dict_copy;
  username_ ← getattr self username;
  dict_setitem values "username" username_;;
  token_ ← getattr self token;
  dict_setitem values "user_token" token_;;
  _submit self endpoint values.

Definition trophies_fetch (self : loc) (achieved trophy_id : pyval)
  : M Future :=
  base_url ← getattr self _base_url;
  let endpoint := _urljoin base_url "trophies/" in
  values ← getattr self _values ≫= dict_copy;
  username_ ← getattr self username;
  dict_setitem values "username" username_;;
  token_ ← getattr self token;
  dict_setitem values "user_token" token_;;
  when (truthy achieved) (dict_setitem values "achieved" (PStr "true"));;
  when (truthy trophy_id) (dict_setitem values "trophy_id" trophy_id);;
  _submit self endpoint values.

Definition trophies_add_achieved (self : loc) (trophy_id : pyval)
  : M Future :=
  base_url ← getattr self _base_url;
  let endpoint := _urljoin base_url "trophies/add-achieved/" in
  values ← getattr self _values ≫= dict_copy;
  username_ ← getattr self username;
  dict_setitem values "username" username_;;
  token_ ← getattr self token;
  dict_setitem values "user_token" token_;;
  dict_setitem values "trophy_id" trophy_id;;
  _submit self endpoint values.

Definition scores_fetch (self : loc) (table_id limit : pyval) : M Future :=
  base_url ← getattr self _base_url;
  let endpoint := _urljoin base_url "scores/" in
  values ← getattr self _values ≫= dict_copy;
  dict_setitem values "limit" limit;;
  when (truthy table_id) (dict_setitem values "table_id" table_id);;
  _submit self endpoint values.

Definition scores_add (self : loc) (sort score table_id : pyval)
  : M Future :=
  base_url ← getattr self _base_url;
  let endpoint := _urljoin base_url "scores/add/" in
  values ← getattr self _values ≫= dict_copy;
  username_ ← getattr self username;
  token_ ← getattr self token;
  (if truthy (py_and username_ token_)
   then dict_setitem values "username" username_;;
        dict_setitem values "user_token" token_
   else dict_setitem values "guest" (PStr "Guest"));;
  dict_setitem values "sort" sort;;
  dict_setitem values "score" (py_or score sort);;
  when (truthy table_id) (dict_setitem values "table_id" table_id);;
  _submit self endpoint values.

Definition scores_tables (self : loc) : M Future :=
  base_url ← getattr self _base_url;
  let endpoint := _urljoin base_url "scores/tables/" in
  values ← getattr self _values;
  _submit self endpoint values.

Definition data_store_fetch (self : loc) (key public : pyval) : M Future :=
  base_url ← getattr self _base_url;
  let endpoint := _urljoin base_url "data-store/" in
  values ← getattr self _values ≫= dict_copy;
  dict_setitem values "key" key;;
  username_ ← getattr self username;
  token_ ← getattr self token;
  when (truthy (py_and (py_and username_ token_) (py_not public)))
    (dict_setitem values "username" username_;;
     dict_setitem values "user_token" token_);;
  _submit self endpoint values.

Definition data_store_set (self : loc) (key data public : pyval)
  : M Future :=
  base_url ← getattr self _base_url;
  let endpoint := _urljoin base_url "data-store/set/" in
  values ← getattr self _values ≫= dict_copy;
  dict_setitem values "key" key;;
  dict_setitem values "data" data;;
  username_ ← getattr self username;
  token_ ← getattr self token;
  when (truthy (py_and (py_and username_ token_) (py_not public)))
    (dict_setitem values "username" username_;;
     dict_setitem values "user_token" token_);;
  _submit self endpoint values.

Definition operations : list string :=
  ["add"; "subtract"; "multiply"; "divide"; "append"; "prepend"].

Definition data_store_update (self : loc) (key operation value public : pyval)
  : M Future :=
  py_assert (py_in operation operations);;
  base_url ← getattr self _base_url;
  let endpoint := _urljoin base_url "data-store/update/" in
  values ← getattr self _values ≫= dict_copy;
  dict_setitem values "key" key;;
  dict_setitem values "operation" operation;;
  dict_setitem values "value" value;;
  username_ ← getattr self username;
  token_ ← getattr self token;
  when (truthy (py_and (py_and username_ token_) (py_not public)))
    (dict_setitem values "username" username_;;
     dict_setitem values "user_token" token_);;
  _submit self endpoint values.

Definition data_store_remove (self : loc) (key public : pyval) : M Future :=
  base_url ← getattr self _base_url;
  let endpoint := _urljoin base_url "data-store/remove/" in
  values ← getattr self _values ≫= dict_copy;
  dict_setitem values "key" key;;
  username_ ← getattr self username;
  token_ ← getattr self token;
  when (truthy (py_and (py_and username_ token_) (py_not public)))
    (dict_setitem values "username" username_;;
     dict_setitem values "user_token" token_);;
  _submit self endpoint values.

Definition data_store_get_keys (self : loc) (public : pyval) : M Future :=
  base_url ← getattr self _base_url;
  let endpoint := _urljoin base_url "data-store/get-keys/" in
  values ← getattr self _values ≫= dict_copy;
  username_ ← getattr self username;
  token_ ← getattr self token;
  when (truthy (py_and (py_and username_ token_) (py_not public)))
    (dict_setitem values "username" username_;;
     dict_setitem values "user_token" token_);;
  _submit self endpoint values.

End GameJoltAPI.

(** ** A sample environment, used to run the model on concrete inputs *)

(** Resolution of a relative path without dot segments against a base
    that ends in [/]: what [urljoin] returns for the endpoints of this
    client. *)
Definition urljoin_dir (base rel : string) : string := base +:+ rel.

(** A transport that answers every request with the same body, and one
    that fails every request. *)
Definition urlopen_body (body : list Z) (url : string) : outcome (list Z) :=
  Return body.
Definition urlopen_fail (e : exn) (url : string) : outcome (list Z) :=
  Raise e.
Definition read_all (r : list Z) : outcome (list Z) := Return r.

(** A decoder that knows the documents of a table and rejects every other
    body. *)
Definition loads_table (known : list (string * json)) (body : list Z)
  : outcome json :=
  match List.find (fun kv => bool_decide (codes kv.1 = body)) known with
  | Some kv => Return kv.2
  | None =>
      Raise (Exn (LibraryError "JSONDecodeError")
                 "Expecting value: line 1 column 1 (char 0)")
  end.

Definition dq : string := String (ascii_of_nat 34) "".

(** The bodies [{"response": {"success": "true", "message": "ok"}}],
    [{"response": [1, 2]}] and [{"success": "true"}], with what [json.loads]
    makes of them. *)
Definition body_success : string :=
  "{" +:+ dq +:+ "response" +:+ dq +:+ ": {" +:+ dq +:+ "success" +:+ dq
  +:+ ": " +:+ dq +:+ "true" +:+ dq +:+ ", " +:+ dq +:+ "message" +:+ dq
  +:+ ": " +:+ dq +:+ "ok" +:+ dq +:+ "}}".
Definition body_list : string :=
  "{" +:+ dq +:+ "response" +:+ dq +:+ ": [1, 2]}".
Definition body_no_response : string :=
  "{" +:+ dq +:+ "success" +:+ dq +:+ ": " +:+ dq +:+ "true" +:+ dq +:+ "}".

Definition sample_documents : list (string * json) :=
  [(body_success,
    JDict [("response", JDict [("success", JStr "true"); ("message", JStr "ok")])]);
   (body_list, JDict [("response", JList [JInt 1; JInt 2])]);
   (body_no_response, JDict [("success", JStr "true")])].

(** A store with one client, as [GameJoltAPI("123", "secret")] leaves it,
    one whose client has a player, and one whose private key has the
    non-ASCII character U+00E9. *)
Definition empty_state : state := mkState ∅ ∅ [].
Definition sample_self : loc := 1%positive.
Definition sample_state : state :=
  (new (PStr "123") "secret" PNone PNone empty_state).2.
Definition player_state : state :=
  (new (PStr "123") "secret" (PStr "ann") (PStr "t0k3n") empty_state).2.
Definition accent_state : state :=
  (new (PStr "123") ("s" +:+ String (ascii_of_nat 233) "cret") PNone PNone
     empty_state).2.

(** 129 different unsigned URLs. *)
Definition many_urls : list string :=
  map (fun n : nat =>
         "http://api.gamejolt.com/api/game/v1/scores/?format=json&game_id=123&limit="
         +:+ pretty n)
      (seq 0 129).

(** * Vocabulary of the properties *)

Definition is_lower_hex (s : string) : bool :=
  forallb (fun c => ((48 <=? c) && (c <=? 57)) || ((97 <=? c) && (c <=? 102)))
          (codes s).

Definition unreserved (s : string) : bool := forallb always_safe (codes s).

(** The private key of a client, and what [_encode_signed_url] computes
    from it on a miss. *)
Definition key_of (st : state) (self : loc) : string :=
  _private_key (objects st !!! self).

Definition signature (key url : string) : string :=
  SHA1.hexdigest (codes url ++ codes key)%list.

Definition signed (key url : string) : outcome string :=
  obind (bytearray_ascii (url +:+ key))
        (fun _ => Return (url +:+ "&signature=" +:+ signature key url)).

(** Every memoised result of [self] is what the method would compute now. *)
Definition coherent (st : state) (self : loc) : Prop :=
  forall url v,
    LRU.find (self, url) (signed_urls st) = Some v ->
    signed (key_of st self) url = Return v.

(** The calls waiting for the worker of a client, oldest first. *)
Definition queue_of (st : state) (self : loc) : list string :=
  work_queue (_executor (objects st !!! self)).

(** The unsigned URL that [_submit] builds. *)
Definition unsigned_url (st : state) (endpoint : string) (values : loc) : string :=
  endpoint +:+ "?" +:+ urlencode (dicts st !!! values).

(** Signing a list of URLs in order. *)
Fixpoint sign_each (self : loc) (urls : list string) : M unit :=
  match urls with
  | [] => mret tt
  | url :: urls' => _encode_signed_url self url;; sign_each self urls'
  end.

(** The dictionary that a builder gets from [self._values.copy()] lives at
    a fresh location; [with_values st d] is the store [st] with the
    dictionary [d] there. *)
Definition fresh_values (st : state) : loc := fresh (dom (dicts st)).

Definition with_values (st : state) (d : dict) : state :=
  set_dicts (<[fresh_values st := d]> (dicts st)) st.

(** The fields of a client that no method assigns. *)
Definition client_fields (c : GameJoltAPI)
  : pyval * string * string * pyval * pyval * loc :=
  (_game_id c, _private_key c, _base_url c, username c, token c, _values c).

(** [self._values] refers to the dictionary that [__init__] made. *)
Definition initial_values (st : state) (self : loc) : Prop :=
  let c := objects st !!! self in
  dicts st !! _values c
  = Some [("format", PStr "json"); ("game_id", _game_id c)].

Inductive builder_call : Type :=
| Session_open
| Session_ping (idle : pyval)
| Session_close
| Trophies_fetch (achieved trophy_id : pyval)
| Trophies_add_achieved (trophy_id : pyval)
| Scores_fetch (table_id limit : pyval)
| Scores_add (sort score table_id : pyval)
| Scores_tables
| Data_store_fetch (key public : pyval)
| Data_store_set (key data public : pyval)
| Data_store_update (key operation value public : pyval)
| Data_store_remove (key public : pyval)
| Data_store_get_keys (public : pyval).

Definition call (_urljoin : string -> string -> string) (self : loc)
  (b : builder_call) : M Future :=
  match b with
  | Session_open => session_open _urljoin self
  | Session_ping idle => session_ping _urljoin self idle
  | Session_close => session_close _urljoin self
  | Trophies_fetch achieved trophy_id =>
      trophies_fetch _urljoin self achieved trophy_id
  | Trophies_add_achieved trophy_id =>
      trophies_add_achieved _urljoin self trophy_id
  | Scores_fetch table_id limit => scores_fetch _urljoin self table_id limit
  | Scores_add sort score table_id =>
      scores_add _urljoin self sort score table_id
  | Scores_tables => scores_tables _urljoin self
  | Data_store_fetch key public => data_store_fetch _urljoin self key public
  | Data_store_set key data public =>
      data_store_set _urljoin self key data public
  | Data_store_update key operation value public =>
      data_store_update _urljoin self key operation value public
  | Data_store_remove key public => data_store_remove _urljoin self key public
  | Data_store_get_keys public => data_store_get_keys _urljoin self public
  end.

(** The result that [_get_response] makes from an exception. *)
Definition failure (e : exn) : json :=
  JDict [("success", JStr "false"); ("error", JStr (exn_str e))].

(** The shape that the specification calls a successful [APIResult]: a
    mapping with [success] true and a [payload] mapping. *)
Definition is_success_result (r : json) : bool :=
  match r with
  | JDict d =>
      match json_get "success" d, json_get "payload" d with
      | Some (JBool true), Some (JDict _) => true
      | _, _ => false
      end
  | _ => false
  end.

Section Failures.
Variable http_response : Type.
Variable _urlopen : string -> outcome http_response.
Variable read : http_response -> outcome (list Z).
Variable _json_loads : list Z -> outcome json.

(** The exception, if any, that the body of the [try] raises. *)
Inductive fails (signed_url : string) (e : exn) : Prop :=
| fails_urlopen :
    _urlopen signed_url = Raise e -> fails signed_url e
| fails_read r :
    _urlopen signed_url = Return r -> read r = Raise e -> fails signed_url e
| fails_loads r body :
    _urlopen signed_url = Return r -> read r = Return body ->
    _json_loads body = Raise e -> fails signed_url e
| fails_getitem r body decoded :
    _urlopen signed_url = Return r -> read r = Return body ->
    _json_loads body = Return decoded ->
    getitem decoded "response" = Raise e -> fails signed_url e.
End Failures.

(** The endpoint of each builder, relative to the base URL. *)
Definition endpoint_suffix (b : builder_call) : string :=
  match b with
  | Session_open => "sessions/open/"
  | Session_ping _ => "sessions/ping/"
  | Session_close => "sessions/close/"
  | Trophies_fetch _ _ => "trophies/"
  | Trophies_add_achieved _ => "trophies/add-achieved/"
  | Scores_fetch _ _ => "scores/"
  | Scores_add _ _ _ => "scores/add/"
  | Scores_tables => "scores/tables/"
  | Data_store_fetch _ _ => "data-store/"
  | Data_store_set _ _ _ => "data-store/set/"
  | Data_store_update _ _ _ _ => "data-store/update/"
  | Data_store_remove _ _ => "data-store/remove/"
  | Data_store_get_keys _ => "data-store/get-keys/"
  end.

(** Whether the assertion of a builder holds; only [data_store_update] has
    one. *)
Definition asserts_ok (b : builder_call) : bool :=
  match b with
  | Data_store_update _ operation _ _ => py_in operation operations
  | _ => true
  end.

(** The [public] argument of the data-store builders. *)
Definition public_arg (b : builder_call) : option pyval :=
  match b with
  | Data_store_fetch _ public | Data_store_set _ _ public
  | Data_store_update _ _ _ public | Data_store_remove _ public
  | Data_store_get_keys public => Some public
  | _ => None
  end.

(** The builders that put [username] and [user_token] in the request
    without looking at them. *)
Definition sends_credentials (b : builder_call) : bool :=
  match b with
  | Session_open | Session_ping _ | Session_close
  | Trophies_fetch _ _ | Trophies_add_achieved _ => true
  | _ => false
  end.

(** The parameters that [__init__] puts in [_values]. *)
Definition base_params (c : GameJoltAPI) : dict :=
  [("format", PStr "json"); ("game_id", _game_id c)].

(** What every method keeps true of a client: its base parameters are the
    ones [__init__] made, and the memo table holds at most 128 entries, those
    of the client being what the signer computes from its key. *)
Definition client_ok (st : state) (self : loc) : Prop :=
  initial_values st self
  /\ coherent st self
  /\ (length (signed_urls st) <= 128)%nat.

(** A program that calls builders on clients one after the other and goes
    on after an exception. *)
Fixpoint run (_urljoin : string -> string -> string)
  (calls : list (loc * builder_call)) (st : state) : state :=
  match calls with
  | [] => st
  | (self, b) :: calls' => run _urljoin calls' (call _urljoin self b st).2
  end.

(** The calls of a program that are made on one client. *)
Definition calls_on (self : loc) (calls : list (loc * builder_call))
  : list builder_call :=
  map snd (List.filter (fun sb => bool_decide (sb.1 = self)) calls).

(** The characters that [quote_plus] produces. *)
Definition query_char (c : Z) : bool :=
  always_safe c || (c =? 37) || (c =? 43).

Definition query_text (s : string) : bool := forallb query_char (codes s).

Definition is_byte (c : Z) : bool := (0 <=? c) && (c <? 256).

(** Number of occurrences of a character in a string. *)
Fixpoint count_char (a : ascii) (s : string) : nat :=
  match s with
  | EmptyString => O
  | String b s' => ((if Ascii.eqb a b then 1 else 0) + count_char a s')%nat
  end.

(** * Properties *)

(** ** The digest and its encoding *)

Lemma hexdigit_cases (x : Z) :
  In (SHA1.hexdigit x)
     (list_ascii_of_string "0123456789abcdef").
Proof.
  unfold SHA1.hexdigit.
  assert (H : 0 <= Z.land x 15 < 16).
  { change 15 with (Z.ones 4). rewrite Z.land_ones by lia.
    apply Z.mod_pos_bound. lia. }
  remember (Z.land x 15) as n eqn:E. clear E.
  assert (Hn : (Z.to_nat n < 16)%nat) by lia.
  remember (Z.to_nat n) as m eqn:E. clear E H n x.
  do 16 (destruct m as [|m]; [simpl; tauto|]). lia.
Qed.

Lemma hexdigit_lower (x : Z) :
  let c := code (SHA1.hexdigit x) in
  ((48 <=? c) && (c <=? 57)) || ((97 <=? c) && (c <=? 102)) = true.
Proof.
  pose proof (hexdigit_cases x) as H. simpl in H.
  repeat (destruct H as [<- | H]; [reflexivity|]). destruct H.
Qed.

Lemma hex_length (bs : list Z) :
  String.length (SHA1.hex bs) = (2 * length bs)%nat.
Proof. induction bs as [|b bs IH]; simpl; [reflexivity | rewrite IH; lia]. Qed.

Lemma hex_lower (bs : list Z) : is_lower_hex (SHA1.hex bs) = true.
Proof.
  unfold is_lower_hex. induction bs as [|b bs IH]; [reflexivity|].
  cbn [SHA1.hex codes list_ascii_of_string map forallb].
  rewrite (hexdigit_lower (Z.shiftr b 4)), (hexdigit_lower b). exact IH.
Qed.

Lemma be_bytes_length (n : nat) (x : Z) : length (SHA1.be_bytes n x) = n.
Proof. induction n; simpl; congruence. Qed.

Lemma digest_length (msg : list Z) : length (SHA1.digest msg) = 20%nat.
Proof.
  unfold SHA1.digest. cbv zeta.
  rewrite !length_app, !be_bytes_length. reflexivity.
Qed.

Lemma hexdigest_length (msg : list Z) :
  String.length (SHA1.hexdigest msg) = 40%nat.
Proof. unfold SHA1.hexdigest. rewrite hex_length, digest_length. reflexivity. Qed.

(** ** Percent-encoding leaves unreserved text alone *)

Lemma always_safe_range (c : Z) : always_safe c = true -> 33 <= c < 128.
Proof.
  unfold always_safe.
  rewrite !orb_true_iff, !andb_true_iff, !Z.leb_le, !Z.eqb_eq. lia.
Qed.

Lemma code_ascii (a : ascii) : ascii_of_nat (Z.to_nat (code a)) = a.
Proof. unfold code. rewrite Nat2Z.id. apply ascii_nat_embedding. Qed.

Lemma quote_cons (safe : list Z) (a : ascii) (s : string) :
  always_safe (code a) = true ->
  quote safe (String a s) = String a (quote safe s).
Proof.
  intros Ha. pose proof (always_safe_range _ Ha) as Hr.
  unfold quote, utf8. cbn [list_ascii_of_string flat_map].
  unfold utf8_char at 1. cbv zeta.
  destruct (Z.ltb_spec (code a) 128) as [_|]; [|lia].
  cbn [app fold_right]. unfold quote_byte. rewrite Ha. cbn [orb].
  rewrite code_ascii. reflexivity.
Qed.

Lemma quote_unreserved (safe : list Z) (s : string) :
  unreserved s = true -> quote safe s = s.
Proof.
  unfold unreserved. induction s as [|a s IH]; [reflexivity|].
  cbn [codes list_ascii_of_string map forallb]. intros [Ha Hs]%andb_true_iff.
  rewrite quote_cons by exact Ha. f_equal. apply IH, Hs.
Qed.

Lemma unreserved_no_space (s : string) :
  unreserved s = true -> has_char " " s = false.
Proof.
  unfold unreserved. induction s as [|a s IH]; [reflexivity|].
  cbn [codes list_ascii_of_string map forallb has_char].
  intros [Ha Hs]%andb_true_iff. rewrite (IH Hs), orb_false_r.
  apply always_safe_range in Ha. apply Ascii.eqb_neq. intros <-.
  change (code " ") with 32 in Ha. lia.
Qed.

Lemma quote_plus_unreserved (s : string) :
  unreserved s = true -> quote_plus s = s.
Proof.
  intros H. unfold quote_plus.
  rewrite (unreserved_no_space _ H). apply quote_unreserved, H.
Qed.

Lemma lower_hex_unreserved (s : string) :
  is_lower_hex s = true -> unreserved s = true.
Proof.
  unfold is_lower_hex, unreserved. generalize (codes s) as l.
  induction l as [|c l IH]; [reflexivity|]. cbn [forallb].
  intros [Hc Hl]%andb_true_iff. rewrite (IH Hl), andb_true_r.
  unfold always_safe.
  rewrite !orb_true_iff, !andb_true_iff, !Z.leb_le in Hc.
  rewrite !orb_true_iff, !andb_true_iff, !Z.leb_le, !Z.eqb_eq. lia.
Qed.

Lemma urlencode_signature (bs : list Z) :
  urlencode [("signature", PStr (SHA1.hex bs))] = "signature=" +:+ SHA1.hex bs.
Proof.
  unfold urlencode. cbn [map join fst snd py_str].
  rewrite (quote_plus_unreserved (SHA1.hex bs))
    by apply lower_hex_unreserved, hex_lower.
  reflexivity.
Qed.

(** ** Encoding to ASCII *)

Lemma first_bad_none (i : nat) (l : list Z) :
  first_bad i l = None <-> forallb (fun c => c <? 128) l = true.
Proof.
  revert i. induction l as [|c l IH]; intros i; cbn [first_bad forallb].
  - tauto.
  - destruct (c <? 128); cbn [andb]; [apply IH | split; discriminate].
Qed.

Lemma bytearray_ascii_ok (s : string) :
  is_ascii s = true -> bytearray_ascii s = Return (codes s).
Proof.
  unfold is_ascii, bytearray_ascii. intros H%(first_bad_none 0).
  rewrite H. reflexivity.
Qed.

Lemma bytearray_ascii_error (s : string) :
  is_ascii s = false ->
  exists e, bytearray_ascii s = Raise e /\ exn_type e = UnicodeEncodeError.
Proof.
  unfold is_ascii, bytearray_ascii. intros H.
  destruct (first_bad 0 (codes s)) as [[[start stop] c]|] eqn:E.
  - eexists. split; reflexivity.
  - apply first_bad_none in E. congruence.
Qed.

(** ** The memo table *)

Section LRU_facts.
Context {K V : Type} `{EqDecision K}.
Implicit Types (c : list (K * V)) (k : K) (v : V).

Lemma find_remove_ne c k k' : k' <> k -> LRU.find k' (LRU.remove k c) = LRU.find k' c.
Proof.
  intros Hne. induction c as [|[k0 v0] c IH]; [reflexivity|]. cbn.
  destruct (decide (k0 = k)) as [->|].
  - destruct (decide (k = k')); congruence.
  - cbn. rewrite IH. reflexivity.
Qed.

Lemma find_touch c k v k' :
  LRU.find k c = Some v -> LRU.find k' (LRU.touch k v c) = LRU.find k' c.
Proof.
  intros Hk. unfold LRU.touch. cbn.
  destruct (decide (k = k')) as [<-|Hne]; [congruence|].
  apply find_remove_ne. congruence.
Qed.

Lemma length_remove c k v :
  LRU.find k c = Some v -> S (length (LRU.remove k c)) = length c.
Proof.
  induction c as [|[k0 v0] c IH]; [discriminate|]. cbn.
  destruct (decide (k0 = k)); [reflexivity|]. cbn. auto.
Qed.

Lemma length_touch c k v :
  LRU.find k c = Some v -> length (LRU.touch k v c) = length c.
Proof. intros Hk. unfold LRU.touch. cbn. eapply length_remove, Hk. Qed.

Lemma find_removelast c k v :
  LRU.find k (removelast c) = Some v -> LRU.find k c = Some v.
Proof.
  induction c as [|[k0 v0] c IH]; [discriminate|].
  destruct c as [|e c']; [discriminate|].
  change (removelast ((k0, v0) :: e :: c')) with ((k0, v0) :: removelast (e :: c')).
  cbn [LRU.find]. destruct (decide (k0 = k)); [tauto | exact IH].
Qed.

Lemma find_store n c k v k' v' :
  LRU.find k' (LRU.store n k v c) = Some v' ->
  (k' = k /\ v' = v) \/ LRU.find k' c = Some v'.
Proof.
  unfold LRU.store. destruct (LRU.find k c) eqn:Hk; [tauto|].
  destruct (n <=? length c)%nat; cbn [LRU.find];
    (destruct (decide (k = k')) as [<-|]; [left; split; congruence|]).
  - intros Hf%find_removelast. tauto.
  - tauto.
Qed.

Lemma find_store_room n c k v k' v' :
  (length c < n)%nat ->
  LRU.find k' c = Some v' -> LRU.find k' (LRU.store n k v c) = Some v'.
Proof.
  intros Hlen Hk'. unfold LRU.store.
  destruct (LRU.find k c) eqn:Hk; [exact Hk'|].
  destruct (Nat.leb_spec n (length c)); [lia|]. cbn.
  destruct (decide (k = k')) as [<-|]; congruence.
Qed.

Lemma length_store n c k v :
  (0 < n)%nat -> (length c <= n)%nat -> (length (LRU.store n k v c) <= n)%nat.
Proof.
  intros Hn Hlen. unfold LRU.store. destruct (LRU.find k c); [exact Hlen|].
  destruct (Nat.leb_spec n (length c)); cbn [length].
  - rewrite removelast_firstn_len, length_take. lia.
  - lia.
Qed.

Lemma store_full n c k v :
  LRU.find k c = None -> (n <= length c)%nat ->
  LRU.store n k v c = (k, v) :: removelast c.
Proof.
  intros Hk Hlen. unfold LRU.store. rewrite Hk.
  destruct (Nat.leb_spec n (length c)); [reflexivity | lia].
Qed.
End LRU_facts.

(** ** The signer *)

Lemma codes_app (s t : string) : codes (s +:+ t) = (codes s ++ codes t)%list.
Proof.
  unfold codes. induction s as [|a s IH]; [reflexivity|].
  change (String a s +:+ t) with (String a (s +:+ t)).
  cbn [list_ascii_of_string map app]. f_equal. exact IH.
Qed.

Lemma signed_ascii (key url : string) :
  is_ascii (url +:+ key) = true ->
  signed key url = Return (url +:+ "&signature=" +:+ signature key url).
Proof. intros H. unfold signed. rewrite (bytearray_ascii_ok _ H). reflexivity. Qed.

Lemma signed_not_ascii (key url : string) :
  is_ascii (url +:+ key) = false ->
  exists e, signed key url = Raise e /\ exn_type e = UnicodeEncodeError.
Proof.
  intros H. destruct (bytearray_ascii_error _ H) as (e & He & Hc).
  exists e. unfold signed. rewrite He. split; [reflexivity | exact Hc].
Qed.

Lemma encode_body_spec (st : state) (self : loc) (url : string) :
  _encode_signed_url_body self url st = (signed (key_of st self) url, st).
Proof.
  unfold _encode_signed_url_body, signed, signature, key_of.
  unfold mbind, M_bind, mret, M_ret, getattr, lift.
  destruct (bytearray_ascii _) as [bs|e] eqn:E; cbn [obind]; [|reflexivity].
  unfold SHA1.hexdigest. rewrite urlencode_signature.
  assert (bs = (codes url ++ codes (_private_key (objects st !!! self)))%list) as ->.
  { rewrite <- codes_app. unfold bytearray_ascii in E.
    destruct (first_bad _ _) as [[[? ?] ?]|]; congruence. }
  reflexivity.
Qed.

Lemma coherent_empty (st : state) (self : loc) :
  signed_urls st = [] -> coherent st self.
Proof. intros H url v. rewrite H. discriminate. Qed.

Lemma set_signed_urls_id (st : state) : set_signed_urls (signed_urls st) st = st.
Proof. destruct st. reflexivity. Qed.

(** The memoised method returns what its body returns and touches nothing
    but the table. *)
Lemma encode_signed_url_spec (st : state) (self : loc) (url : string) :
  coherent st self ->
  exists c',
    _encode_signed_url self url st
      = (signed (key_of st self) url, set_signed_urls c' st)
    /\ coherent (set_signed_urls c' st) self
    /\ ((forall v, signed (key_of st self) url <> Return v) -> c' = signed_urls st).
Proof.
  intros Hco. unfold _encode_signed_url, lru_cache.
  destruct (LRU.find (self, url) (signed_urls st)) as [v|] eqn:Hf.
  - exists (LRU.touch (self, url) v (signed_urls st)).
    rewrite (Hco _ _ Hf). split; [reflexivity|]. split.
    + intros url' v'. cbn [signed_urls set_signed_urls].
      rewrite (find_touch _ _ _ _ Hf). apply Hco.
    + intros Hno. destruct (Hno v). reflexivity.
  - rewrite encode_body_spec.
    destruct (signed (key_of st self) url) as [v|e] eqn:Hs.
    + exists (LRU.store 128 (self, url) v (signed_urls st)).
      split; [reflexivity|]. split.
      * intros url' v' Hf'. cbn [signed_urls set_signed_urls] in Hf'.
        apply find_store in Hf' as [[Hk ->]|Hf'].
        -- injection Hk as ->. exact Hs.
        -- apply Hco, Hf'.
      * intros Hno. destruct (Hno v). reflexivity.
    + exists (signed_urls st). rewrite set_signed_urls_id.
      split; [reflexivity|]. split; [exact Hco | reflexivity].
Qed.

(** C1. For an ASCII signature input, [_encode_signed_url] returns the same
    signed URL from every state of the memo table (and again on the state it
    leaves behind), and that URL is the unsigned one followed by
    [&signature=] and the 40-digit lowercase hexadecimal SHA-1 digest of the
    bytes of the URL followed by the bytes of the private key. *)
Theorem encode_signed_url_deterministic
  (st1 st2 : state) (self : loc) (url : string) :
  key_of st1 self = key_of st2 self ->
  coherent st1 self -> coherent st2 self ->
  is_ascii (url +:+ key_of st1 self) = true ->
  let sig := SHA1.hexdigest (codes url ++ codes (key_of st1 self))%list in
  let r := _encode_signed_url self url st1 in
  r.1 = Return (url +:+ "&signature=" +:+ sig)
  /\ (_encode_signed_url self url st2).1 = r.1
  /\ (_encode_signed_url self url r.2).1 = r.1
  /\ is_lower_hex sig = true
  /\ String.length sig = 40%nat.
Proof.
  intros Hkey Hco1 Hco2 Hascii sig r.
  destruct (encode_signed_url_spec st1 self url Hco1) as (c1 & E1 & Hco1' & _).
  destruct (encode_signed_url_spec st2 self url Hco2) as (c2 & E2 & _ & _).
  destruct (encode_signed_url_spec _ self url Hco1') as (c3 & E3 & _ & _).
  subst r. rewrite E1. cbn [fst snd]. rewrite E3, E2. cbn [fst snd].
  change (key_of (set_signed_urls c1 st1) self) with (key_of st1 self).
  rewrite <- Hkey, (signed_ascii _ _ Hascii).
  do 3 (split; [reflexivity|]).
  split; [apply hex_lower | apply hexdigest_length].
Qed.

(** ** Submission *)

Lemma submit_spec (st : state) (self : loc) (endpoint : string) (values : loc) :
  coherent st self ->
  match signed (key_of st self) (unsigned_url st endpoint values) with
  | Raise e => _submit self endpoint values st = (Raise e, st)
  | Return v =>
      exists c',
        _submit self endpoint values st
          = executor_submit self v (set_signed_urls c' st)
        /\ coherent (set_signed_urls c' st) self
  end.
Proof.
  intros Hco. unfold _submit, unsigned_url, mbind, M_bind, dict_items.
  destruct (encode_signed_url_spec st self
              (endpoint +:+ "?" +:+ urlencode (dicts st !!! values)) Hco)
    as (c' & -> & Hco' & Hraise).
  destruct (signed _ _) as [v|e].
  - exists c'. split; [reflexivity | exact Hco'].
  - rewrite Hraise by discriminate. rewrite set_signed_urls_id. reflexivity.
Qed.

Lemma executor_submit_queue (st : state) (self : loc) (v : string) :
  let r := executor_submit self v st in
  r.1 = Return (length (queue_of st self))
  /\ queue_of r.2 self = (queue_of st self ++ [v])%list
  /\ dicts r.2 = dicts st.
Proof.
  unfold executor_submit, queue_of. cbn [fst snd objects set_objects dicts].
  rewrite lookup_total_insert_eq. cbn. auto.
Qed.

Lemma submit_ascii (st : state) (self : loc) (endpoint : string) (values : loc) :
  coherent st self ->
  let url := unsigned_url st endpoint values in
  let r := _submit self endpoint values st in
  is_ascii (url +:+ key_of st self) = true ->
  r.1 = Return (length (queue_of st self))
  /\ queue_of r.2 self
     = (queue_of st self
        ++ [url +:+ "&signature=" +:+ signature (key_of st self) url])%list.
Proof.
  intros Hco url r Hascii.
  pose proof (submit_spec st self endpoint values Hco) as H. fold url in H.
  rewrite (signed_ascii _ _ Hascii) in H. destruct H as (c' & E & _).
  subst r. rewrite E.
  destruct (executor_submit_queue (set_signed_urls c' st) self
              (url +:+ "&signature=" +:+ signature (key_of st self) url))
    as (Hr & Hq & _).
  split; [exact Hr | exact Hq].
Qed.

(** C8. [_submit] raises [UnicodeEncodeError] exactly when the unsigned URL
    followed by the private key contains a non-ASCII character; the error
    leaves the whole state as it was (nothing is enqueued for the worker, the
    only place where the network is used), and an ASCII input enqueues the
    signed URL and returns its [Future]. *)
Theorem submit_encoding_error
  (st : state) (self : loc) (endpoint : string) (values : loc) :
  coherent st self ->
  let url := unsigned_url st endpoint values in
  let r := _submit self endpoint values st in
  if is_ascii (url +:+ key_of st self)
  then exists fut, r.1 = Return fut
       /\ queue_of r.2 self
          = (queue_of st self
             ++ [url +:+ "&signature=" +:+ signature (key_of st self) url])%list
  else (exists e, r.1 = Raise e /\ exn_type e = UnicodeEncodeError) /\ r.2 = st.
Proof.
  intros Hco url r.
  destruct (is_ascii (url +:+ key_of st self)) eqn:Hascii.
  - destruct (submit_ascii st self endpoint values Hco Hascii) as [Hr Hq].
    eexists. split; [exact Hr | exact Hq].
  - pose proof (submit_spec st self endpoint values Hco) as H. fold url in H.
    destruct (signed_not_ascii _ _ Hascii) as (e & He & Hc).
    rewrite He in H. subst r. rewrite H. split; [|reflexivity].
    exists e. split; [reflexivity | exact Hc].
Qed.

(** C3 (as amended). The signer joins the unsigned URL and the encoded
    [signature] parameter with [&], whatever the URL; every URL that
    [_submit] signs already contains the [?] that [_submit] itself puts
    between the endpoint and the query, and the call enqueued for an ASCII
    input is that URL followed by [&signature=] and the digest. *)
Theorem signature_separator
  (st : state) (self : loc) (endpoint url : string) (values : loc) :
  coherent st self ->
  (is_ascii (url +:+ key_of st self) = true ->
   (_encode_signed_url self url st).1
   = Return (url +:+ "&" +:+ urlencode [("signature", PStr (signature (key_of st self) url))]))
  /\ has_char "?" (unsigned_url st endpoint values) = true
  /\ (is_ascii (unsigned_url st endpoint values +:+ key_of st self) = true ->
      queue_of (_submit self endpoint values st).2 self
      = (queue_of st self
         ++ [unsigned_url st endpoint values +:+ "&signature="
             +:+ signature (key_of st self) (unsigned_url st endpoint values)])%list).
Proof.
  intros Hco. split; [|split].
  - intros Hascii.
    destruct (encode_signed_url_spec st self url Hco) as (c' & -> & _).
    cbn [fst]. rewrite (signed_ascii _ _ Hascii).
    unfold signature, SHA1.hexdigest. rewrite urlencode_signature. reflexivity.
  - unfold unsigned_url. induction endpoint as [|a s IH]; [reflexivity|].
    change (String a s +:+ "?" +:+ urlencode (dicts st !!! values))
      with (String a (s +:+ "?" +:+ urlencode (dicts st !!! values))).
    cbn [has_char]. rewrite IH. apply orb_true_r.
  - intros Hascii.
    exact (proj2 (submit_ascii st self endpoint values Hco Hascii)).
Qed.

(** ** Size of the memo table *)

(** C4 (as amended). The memo table of the signer never holds more than 128
    entries.  A call keeps every entry when its URL is already in the table
    or the table holds fewer than 128 entries; a call that signs a new URL
    with a full table drops the least recently used entry and puts the new
    one first. *)
Theorem signed_urls_bounded (st : state) (self : loc) (url : string) :
  (length (signed_urls st) <= 128)%nat ->
  let r := _encode_signed_url self url st in
  (length (signed_urls r.2) <= 128)%nat
  /\ (is_Some (LRU.find (self, url) (signed_urls st))
        \/ (length (signed_urls st) < 128)%nat ->
      forall k v, LRU.find k (signed_urls st) = Some v ->
                  LRU.find k (signed_urls r.2) = Some v)
  /\ (LRU.find (self, url) (signed_urls st) = None ->
      length (signed_urls st) = 128%nat ->
      forall v, r.1 = Return v ->
                signed_urls r.2 = ((self, url), v) :: removelast (signed_urls st)).
Proof.
  intros Hlen. unfold _encode_signed_url, lru_cache.
  destruct (LRU.find (self, url) (signed_urls st)) as [v0|] eqn:Hf.
  - cbn [fst snd signed_urls set_signed_urls]. split; [|split].
    + rewrite (length_touch _ _ _ Hf). exact Hlen.
    + intros _ k v Hk. rewrite (find_touch _ _ _ _ Hf). exact Hk.
    + discriminate.
  - rewrite encode_body_spec.
    destruct (signed (key_of st self) url) as [v0|e];
      cbn [fst snd signed_urls set_signed_urls].
    + split; [|split].
      * apply length_store; [lia | exact Hlen].
      * intros [[? [=]]|Hroom] k v Hk. apply find_store_room; assumption.
      * intros _ Hfull v [= ->]. apply store_full; [exact Hf | lia].
    + split; [exact Hlen|]. split; [auto | discriminate].
Qed.

(** ** Endpoint builders *)

Lemma bind_run {A B} (m : M A) (k : A -> M B) (st : state) :
  (m ≫= k) st
  = match m st with
    | (Return a, st') => k a st'
    | (Raise e, st') => (Raise e, st')
    end.
Proof. reflexivity. Qed.

Lemma copy_values (st : state) (l : loc) :
  dict_copy l st = (Return (fresh_values st), with_values st (dicts st !!! l)).
Proof. reflexivity. Qed.

Lemma getattr_with_values {A} (st : state) (d : dict) (self : loc)
  (f : GameJoltAPI -> A) :
  getattr self f (with_values st d)
  = (Return (f (objects st !!! self)), with_values st d).
Proof. reflexivity. Qed.

Lemma setitem_fresh (st : state) (d : dict) (k : string) (v : pyval) :
  dict_setitem (fresh_values st) k v (with_values st d)
  = (Return tt, with_values st (dict_set k v d)).
Proof.
  unfold dict_setitem, with_values, set_dicts. cbn [dicts objects signed_urls].
  rewrite lookup_total_insert_eq, insert_insert_eq. reflexivity.
Qed.

(** Run the straight-line part of a builder, up to its [_submit]. *)
Ltac exec :=
  repeat first
    [ rewrite bind_run
    | rewrite copy_values
    | rewrite getattr_with_values
    | rewrite setitem_fresh
    | progress cbn [getattr when mret M_ret] ].

Ltac exec_branches :=
  exec;
  repeat match goal with
         | |- context [when ?b _ _] => destruct b; exec
         | |- context [if ?b then _ else _] => destruct b; exec
         end.

Section Builders.
Variable _urljoin : string -> string -> string.

(** Every builder either fails its assertion, or submits [self._values]
    itself, or submits a fresh dictionary that it has filled. *)
Lemma call_shape (self : loc) (b : builder_call) (st : state) :
  (exists e, call _urljoin self b st = (Raise e, st))
  \/ (exists endpoint,
        call _urljoin self b st
        = _submit self endpoint (_values (objects st !!! self)) st)
  \/ (exists endpoint d,
        call _urljoin self b st
        = _submit self endpoint (fresh_values st) (with_values st d)).
Proof.
  destruct b; cbn [call].
  - right; right. unfold session_open. exec_branches; eauto.
  - right; right. unfold session_ping. exec_branches; eauto.
  - right; right. unfold session_close. exec_branches; eauto.
  - right; right. unfold trophies_fetch. exec_branches; eauto.
  - right; right. unfold trophies_add_achieved. exec_branches; eauto.
  - right; right. unfold scores_fetch. exec_branches; eauto.
  - right; right. unfold scores_add. exec_branches; eauto.
  - right; left. unfold scores_tables. exec. eauto.
  - right; right. unfold data_store_fetch. exec_branches; eauto.
  - right; right. unfold data_store_set. exec_branches; eauto.
  - unfold data_store_update, py_assert. rewrite bind_run.
    destruct (py_in operation operations).
    + right; right. exec_branches; eauto.
    + left. eexists. reflexivity.
  - right; right. unfold data_store_remove. exec_branches; eauto.
  - right; right. unfold data_store_get_keys. exec_branches; eauto.
Qed.
End Builders.

Lemma submit_frame (st : state) (self : loc) (endpoint : string) (values : loc) :
  let st' := (_submit self endpoint values st).2 in
  dicts st' = dicts st
  /\ client_fields (objects st' !!! self) = client_fields (objects st !!! self).
Proof.
  unfold _submit. rewrite bind_run. cbn [dict_items]. rewrite bind_run.
  unfold _encode_signed_url, lru_cache.
  destruct (LRU.find _ (signed_urls st)) as [v|].
  - unfold executor_submit. cbn [fst snd dicts objects set_objects set_signed_urls].
    rewrite lookup_total_insert_eq. auto.
  - rewrite encode_body_spec. destruct (signed _ _) as [v|e]; [|auto].
    unfold executor_submit. cbn [fst snd dicts objects set_objects set_signed_urls].
    rewrite lookup_total_insert_eq. auto.
Qed.

Lemma with_values_other (st : state) (d : dict) (l : loc) :
  is_Some (dicts st !! l) -> dicts (with_values st d) !! l = dicts st !! l.
Proof.
  intros Hl. unfold with_values. cbn [dicts set_dicts].
  apply lookup_insert_ne. intros E. apply elem_of_dom in Hl.
  rewrite <- E in Hl. exact (is_fresh (dom (dicts st)) Hl).
Qed.

Lemma truthy_py_and (x y : pyval) : truthy (py_and x y) = truthy x && truthy y.
Proof. unfold py_and. destruct (truthy x) eqn:E; [reflexivity | exact E]. Qed.

Lemma py_in_false (x : pyval) (t : list string) :
  (forall s, In s t -> x <> PStr s) -> py_in x t = false.
Proof.
  intros H. unfold py_in. apply not_true_is_false.
  intros (s & Hs & E)%existsb_exists. destruct x as [| | |y]; try discriminate.
  apply String.eqb_eq in E. subst y. exact (H s Hs eq_refl).
Qed.

Lemma initial_values_total (st : state) (self : loc) :
  initial_values st self ->
  dicts st !!! _values (objects st !!! self)
  = [("format", PStr "json"); ("game_id", _game_id (objects st !!! self))].
Proof. apply lookup_total_correct. Qed.

(** The constructor returns a new client whose base parameters are
    [format] and [game_id]. *)
Lemma new_initial_values (game_id : pyval) (private_key : string)
  (username token : pyval) (st : state) :
  let r := new game_id private_key username token st in
  let self := fresh (dom (objects st)) in
  r.1 = Return self
  /\ initial_values r.2 self
  /\ client_fields (objects r.2 !!! self)
     = (game_id, private_key, "http://api.gamejolt.com/api/game/v1/",
        username, token, fresh_values st)
  /\ queue_of r.2 self = [].
Proof.
  unfold new, __init__, initial_values, queue_of, client_fields, fresh_values.
  rewrite bind_run. cbn [fst snd objects dicts mret M_ret].
  rewrite lookup_total_insert_eq. cbn [_values _game_id _private_key _base_url
    _executor work_queue]. rewrite lookup_insert_eq. auto.
Qed.

Section Builder_properties.
Variable _urljoin : string -> string -> string.

(** The dictionary of base parameters stays the one [__init__] made. *)
Lemma initial_values_preserved (self : loc) (b : builder_call) (st : state) :
  initial_values st self ->
  initial_values (call _urljoin self b st).2 self.
Proof.
  unfold initial_values. cbv zeta. intros Hinit.
  assert (Hv : is_Some (dicts st !! _values (objects st !!! self)))
    by (rewrite Hinit; eauto).
  destruct (call_shape _urljoin self b st)
    as [(e & ->) | [(endpoint & ->) | (endpoint & d & ->)]]; [exact Hinit| |].
  - destruct (submit_frame st self endpoint (_values (objects st !!! self)))
      as [Hd Hf]. cbv zeta in Hd, Hf. unfold client_fields in Hf.
    injection Hf as Hg _ _ _ _ Hl. rewrite Hg, Hl, Hd. exact Hinit.
  - destruct (submit_frame (with_values st d) self endpoint (fresh_values st))
      as [Hd Hf]. cbv zeta in Hd, Hf. unfold client_fields in Hf.
    change (objects (with_values st d)) with (objects st) in Hf.
    injection Hf as Hg _ _ _ _ Hl. rewrite Hg, Hl, Hd.
    rewrite (with_values_other st d _ Hv). exact Hinit.
Qed.

(** C10. Whatever builder is called and whatever it returns or raises, the
    client's [_game_id], [_private_key], [_base_url], [username], [token] and
    [_values] are afterwards what they were, and so is the dictionary that
    [_values] refers to. *)
Theorem builders_leave_client_unchanged
  (self : loc) (b : builder_call) (st : state) :
  is_Some (dicts st !! _values (objects st !!! self)) ->
  let st' := (call _urljoin self b st).2 in
  client_fields (objects st' !!! self) = client_fields (objects st !!! self)
  /\ dicts st' !! _values (objects st !!! self)
     = dicts st !! _values (objects st !!! self).
Proof.
  intros Hv.
  destruct (call_shape _urljoin self b st)
    as [(e & ->) | [(endpoint & ->) | (endpoint & d & ->)]]; cbv zeta.
  - auto.
  - destruct (submit_frame st self endpoint (_values (objects st !!! self)))
      as [-> ->]. auto.
  - destruct (submit_frame (with_values st d) self endpoint (fresh_values st))
      as [-> ->]. split; [reflexivity|]. apply with_values_other, Hv.
Qed.

(** C6. When [operation] is none of the six operation names,
    [data_store_update] raises [AssertionError] and leaves the state as it
    was: no dictionary is made, nothing is signed and nothing is
    submitted. *)
Theorem data_store_update_rejects
  (self : loc) (key operation value public : pyval) (st : state) :
  (forall s, In s ["add"; "subtract"; "multiply"; "divide"; "append"; "prepend"] ->
             operation <> PStr s) ->
  let r := data_store_update _urljoin self key operation value public st in
  r.1 = Raise (Exn AssertionError "")
  /\ r.2 = st
  /\ queue_of r.2 self = queue_of st self.
Proof.
  intros Hop. unfold data_store_update, py_assert. rewrite bind_run.
  change ["add"; "subtract"; "multiply"; "divide"; "append"; "prepend"]
    with operations in Hop.
  rewrite (py_in_false _ _ Hop). cbn. auto.
Qed.

(** C7. [scores_add] submits a fresh copy of the base parameters in which,
    when [username] and [token] are both truthy, [username] and
    [user_token] carry them and there is no [guest]; otherwise [guest] is
    ["Guest"] and there is neither [username] nor [user_token]. *)
Theorem scores_add_identity
  (self : loc) (sort score table_id : pyval) (st : state) :
  initial_values st self ->
  let c := objects st !!! self in
  exists d,
    scores_add _urljoin self sort score table_id st
    = _submit self (_urljoin (_base_url c) "scores/add/") (fresh_values st)
        (with_values st d)
    /\ if truthy (username c) && truthy (token c)
       then dict_get "username" d = Some (username c)
            /\ dict_get "user_token" d = Some (token c)
            /\ dict_get "guest" d = None
       else dict_get "guest" d = Some (PStr "Guest")
            /\ dict_get "username" d = None
            /\ dict_get "user_token" d = None.
Proof.
  intros Hinit c. unfold scores_add. exec.
  apply initial_values_total in Hinit. subst c. rewrite Hinit.
  rewrite truthy_py_and.
  destruct (truthy (username _) && truthy (token _)); exec;
    destruct (truthy table_id); exec;
    (eexists; split; [reflexivity | cbn; auto]).
Qed.

(** C5 (as amended). [trophies_fetch] submits a fresh copy of the base
    parameters in which [trophy_id] is present exactly when the argument is
    truthy, and [achieved] is ["true"] exactly when that argument is truthy,
    whatever [trophy_id] is. *)
Theorem trophies_fetch_parameters
  (self : loc) (achieved trophy_id : pyval) (st : state) :
  initial_values st self ->
  let c := objects st !!! self in
  exists d,
    trophies_fetch _urljoin self achieved trophy_id st
    = _submit self (_urljoin (_base_url c) "trophies/") (fresh_values st)
        (with_values st d)
    /\ dict_get "trophy_id" d = (if truthy trophy_id then Some trophy_id else None)
    /\ dict_get "achieved" d = (if truthy achieved then Some (PStr "true") else None).
Proof.
  intros Hinit c. unfold trophies_fetch. exec.
  apply initial_values_total in Hinit. subst c. rewrite Hinit.
  destruct (truthy achieved); exec; destruct (truthy trophy_id); exec;
    (eexists; split; [reflexivity | cbn; auto]).
Qed.
End Builder_properties.

(** ** The worker *)

Section Worker.
Variable http_response : Type.
Variable _urlopen : string -> outcome http_response.
Variable read : http_response -> outcome (list Z).
Variable _json_loads : list Z -> outcome json.

Local Abbreviation get_response :=
  (_get_response http_response _urlopen read _json_loads).
Local Abbreviation failing := (fails http_response _urlopen read _json_loads).

Lemma getitem_missing (d : list (string * json)) :
  json_get "response" d = None ->
  getitem (JDict d) "response" = Raise (Exn KeyError "'response'").
Proof. intros H. unfold getitem. rewrite H. reflexivity. Qed.

(** C2. [_get_response] returns a value for every signed URL, whatever the
    transport and the decoder do; when opening the URL, reading the body,
    decoding it or taking its ["response"] entry raises [e], that value is
    the mapping with [success] ["false"] and [error] [str(e)], and a decoded
    mapping without a ["response"] key is such a failure. *)
Theorem get_response_never_raises (signed_url : string) :
  exists result,
    get_response signed_url = Return result
    /\ (forall e, failing signed_url e -> result = failure e)
    /\ (forall r body d,
          _urlopen signed_url = Return r -> read r = Return body ->
          _json_loads body = Return (JDict d) ->
          json_get "response" d = None ->
          result = JDict [("success", JStr "false"); ("error", JStr "'response'")]).
Proof.
  assert (Hfail : forall e, failing signed_url e ->
                            get_response signed_url = Return (failure e)).
  { intros e [H | r H1 H2 | r body H1 H2 H3 | r body decoded H1 H2 H3 H4];
      unfold _get_response;
      repeat first [rewrite H | rewrite H1 | rewrite H2 | rewrite H3
                   | rewrite H4 | progress cbn [obind try_except]];
      reflexivity. }
  assert (Hret : exists result, get_response signed_url = Return result).
  { unfold _get_response.
    destruct (_urlopen signed_url) as [r|e]; cbn [obind try_except]; [|eauto].
    destruct (read r) as [body|e]; cbn [obind try_except]; [|eauto].
    destruct (_json_loads body) as [decoded|e]; cbn [obind try_except]; [|eauto].
    destruct (getitem decoded "response") as [v|e]; cbn [obind try_except]; eauto. }
  destruct Hret as (result & Hres). exists result. split; [exact Hres|]. split.
  - intros e He. apply Hfail in He. congruence.
  - intros r body d H1 H2 H3 H4.
    assert (He : failing signed_url (Exn KeyError "'response'")).
    { eapply fails_getitem; eauto using getitem_missing. }
    apply Hfail in He. unfold failure in He. cbn [exn_str] in He. congruence.
Qed.

(** C9 (as amended). When the URL opens, its body is read and decodes to a
    mapping with a ["response"] entry, [_get_response] returns the value of
    that entry as it is, with nothing wrapped around it. *)
Theorem get_response_returns_response
  (signed_url : string) (r : http_response) (body : list Z)
  (d : list (string * json)) (response : json) :
  _urlopen signed_url = Return r ->
  read r = Return body ->
  _json_loads body = Return (JDict d) ->
  json_get "response" d = Some response ->
  get_response signed_url = Return response.
Proof.
  intros H1 H2 H3 H4. unfold _get_response.
  rewrite H1. cbn [obind]. rewrite H2. cbn [obind]. rewrite H3. cbn [obind getitem].
  rewrite H4. reflexivity.
Qed.
End Worker.

(** * Further properties *)

(** ** What [urlencode] produces *)

Lemma is_ascii_app (s t : string) :
  is_ascii (s +:+ t) = is_ascii s && is_ascii t.
Proof. unfold is_ascii. rewrite codes_app. apply forallb_app. Qed.

Lemma query_text_app (s t : string) :
  query_text (s +:+ t) = query_text s && query_text t.
Proof. unfold query_text. rewrite codes_app. apply forallb_app. Qed.

Lemma count_char_app (a : ascii) (s t : string) :
  count_char a (s +:+ t) = (count_char a s + count_char a t)%nat.
Proof.
  induction s as [|b s IH]; [reflexivity|].
  change (String b s +:+ t) with (String b (s +:+ t)). cbn [count_char].
  rewrite IH. lia.
Qed.

Lemma code_range (a : ascii) : 0 <= code a < 256.
Proof. unfold code. pose proof (nat_ascii_bounded a). lia. Qed.

Lemma code_of_nat (c : Z) : 0 <= c < 256 -> code (ascii_of_nat (Z.to_nat c)) = c.
Proof. intros H. unfold code. rewrite nat_ascii_embedding by lia. lia. Qed.

Lemma HEXDIGIT_cases (x : Z) :
  In (HEXDIGIT x) (list_ascii_of_string "0123456789ABCDEF").
Proof.
  unfold HEXDIGIT.
  assert (H : 0 <= Z.land x 15 < 16).
  { change 15 with (Z.ones 4). rewrite Z.land_ones by lia.
    apply Z.mod_pos_bound. lia. }
  remember (Z.land x 15) as n eqn:E. clear E.
  assert (Hn : (Z.to_nat n < 16)%nat) by lia.
  remember (Z.to_nat n) as m eqn:E. clear E H n x.
  do 16 (destruct m as [|m]; [simpl; tauto|]). lia.
Qed.

Lemma HEXDIGIT_query_char (x : Z) : query_char (code (HEXDIGIT x)) = true.
Proof.
  pose proof (HEXDIGIT_cases x) as H. simpl in H.
  repeat (destruct H as [<- | H]; [reflexivity|]). destruct H.
Qed.

(** A character of a query text is ASCII and is none of the characters
    that structure a URL. *)
Lemma query_char_plain (c : Z) :
  query_char c = true ->
  c < 128 /\ c <> 32 /\ c <> 35 /\ c <> 38 /\ c <> 47 /\ c <> 61 /\ c <> 63.
Proof.
  unfold query_char, always_safe.
  rewrite !orb_true_iff, !andb_true_iff, !Z.leb_le, !Z.eqb_eq. lia.
Qed.

Lemma forallb_weaken {A} (P Q : A -> bool) (l : list A) :
  (forall x, P x = true -> Q x = true) ->
  forallb P l = true -> forallb Q l = true.
Proof.
  intros HPQ. induction l as [|x l IH]; [reflexivity|]. cbn [forallb].
  intros [Hx Hl]%andb_true_iff. rewrite (HPQ x Hx), (IH Hl). reflexivity.
Qed.

Lemma quote_byte_chars (space : bool) (c : Z) :
  0 <= c < 256 ->
  forallb (fun x => query_char x || (space && (x =? 32)))
          (codes (quote_byte (if space then [32] else []) c)) = true.
Proof.
  intros Hc. unfold quote_byte.
  destruct (always_safe c) eqn:Hs; cbn [orb].
  - cbn [codes list_ascii_of_string map forallb]. rewrite code_of_nat by exact Hc.
    unfold query_char. rewrite Hs. reflexivity.
  - destruct space; cbn [existsb orb].
    + destruct (Z.eqb_spec c 32) as [->|Hne]; [reflexivity|].
      cbn [orb codes list_ascii_of_string map forallb].
      rewrite !HEXDIGIT_query_char. reflexivity.
    + cbn [orb codes list_ascii_of_string map forallb].
      rewrite !HEXDIGIT_query_char. reflexivity.
Qed.

Lemma utf8_char_bytes (a : ascii) : forallb is_byte (utf8_char a) = true.
Proof. destruct a as [[] [] [] [] [] [] [] []]; reflexivity. Qed.

Lemma utf8_bytes (s : string) : forallb is_byte (utf8 s) = true.
Proof.
  unfold utf8. induction s as [|a s IH]; [reflexivity|].
  cbn [list_ascii_of_string flat_map]. rewrite forallb_app, utf8_char_bytes. exact IH.
Qed.

Lemma quote_chars (space : bool) (s : string) :
  forallb (fun x => query_char x || (space && (x =? 32)))
          (codes (quote (if space then [32] else []) s)) = true.
Proof.
  unfold quote. pose proof (utf8_bytes s) as Hb.
  induction (utf8 s) as [|c l IH]; [reflexivity|].
  cbn [forallb] in Hb. apply andb_true_iff in Hb as [Hc Hl].
  cbn [fold_right]. rewrite codes_app, forallb_app, (IH Hl), andb_true_r.
  apply quote_byte_chars. unfold is_byte in Hc.
  apply andb_true_iff in Hc as [?%Z.leb_le ?%Z.ltb_lt]. lia.
Qed.

Lemma replace_space_chars (s : string) :
  forallb (fun x => query_char x || (true && (x =? 32))) (codes s) = true ->
  query_text (replace_space s) = true.
Proof.
  unfold query_text. induction s as [|a s IH]; [reflexivity|].
  cbn [codes list_ascii_of_string map forallb replace_space].
  intros [Ha Hs]%andb_true_iff. fold (codes s) in Hs.
  fold (codes (replace_space s)). rewrite (IH Hs), andb_true_r.
  destruct (Ascii.eqb_spec a " ") as [->|Hne]; [reflexivity|].
  apply orb_true_iff in Ha as [Ha|Ha]; [exact Ha|]. cbn [andb] in Ha.
  apply Z.eqb_eq in Ha. destruct Hne.
  rewrite <- (code_ascii a), Ha. reflexivity.
Qed.

Lemma quote_plus_chars (s : string) : query_text (quote_plus s) = true.
Proof.
  unfold quote_plus. destruct (has_char " " s).
  - apply replace_space_chars. exact (quote_chars true s).
  - unfold query_text. eapply forallb_weaken; [|exact (quote_chars false s)].
    intros x. cbn [andb]. rewrite orb_false_r. auto.
Qed.

Lemma query_text_ascii (s : string) : query_text s = true -> is_ascii s = true.
Proof.
  unfold query_text, is_ascii. apply forallb_weaken.
  intros x Hx%query_char_plain. apply Z.ltb_lt. lia.
Qed.

Lemma query_text_count (a : ascii) (s : string) :
  query_char (code a) = false -> query_text s = true -> count_char a s = O.
Proof.
  intros Ha. unfold query_text. induction s as [|b s IH]; [reflexivity|].
  cbn [codes list_ascii_of_string map forallb count_char].
  intros [Hb Hs]%andb_true_iff. fold (codes s) in Hs. rewrite (IH Hs).
  destruct (Ascii.eqb_spec a b) as [->|]; [congruence | reflexivity].
Qed.

Lemma append_assoc (s t u : string) : (s +:+ t) +:+ u = s +:+ t +:+ u.
Proof.
  induction s as [|a s IH]; [reflexivity|].
  change (String a s +:+ t) with (String a (s +:+ t)).
  change (String a (s +:+ t) +:+ u) with (String a ((s +:+ t) +:+ u)).
  rewrite IH. reflexivity.
Qed.

Lemma urlencode_cons (k : string) (v : pyval) (kv : string * pyval) (d : dict) :
  urlencode ((k, v) :: kv :: d)
  = quote_plus k +:+ "=" +:+ quote_plus (py_str v) +:+ "&" +:+ urlencode (kv :: d).
Proof.
  unfold urlencode. cbn [map join fst snd].
  rewrite !append_assoc. reflexivity.
Qed.

Lemma pair_count (a : ascii) (k v : string) :
  query_char (code a) = false ->
  count_char a (quote_plus k +:+ "=" +:+ quote_plus v) = count_char a "=".
Proof.
  intros Ha. rewrite !count_char_app.
  rewrite !(query_text_count a _ Ha (quote_plus_chars _)). lia.
Qed.

(** The query string that [urlencode] makes of any parameters is ASCII; it
    has one [=] per parameter and one [&] between two parameters, and no
    [?], [#], [/] or space, whatever the keys and values contain. *)
Lemma urlencode_structure (d : dict) :
  is_ascii (urlencode d) = true
  /\ count_char "=" (urlencode d) = length d
  /\ count_char "&" (urlencode d) = pred (length d)
  /\ count_char "?" (urlencode d) = O
  /\ count_char "#" (urlencode d) = O
  /\ count_char "/" (urlencode d) = O
  /\ count_char " " (urlencode d) = O.
Proof.
  induction d as [|[k v] d IH]; [repeat split; reflexivity|].
  destruct d as [|kv d].
  - unfold urlencode. cbn [map join fst snd length pred].
    rewrite is_ascii_app, is_ascii_app.
    rewrite !(query_text_ascii _ (quote_plus_chars _)).
    rewrite !pair_count by reflexivity. repeat split; reflexivity.
  - destruct IH as (Ha & He & Hn & Hq & Hh & Hs & Hp).
    rewrite urlencode_cons.
    replace (quote_plus k +:+ "=" +:+ quote_plus (py_str v) +:+ "&"
             +:+ urlencode (kv :: d))
      with ((quote_plus k +:+ "=" +:+ quote_plus (py_str v))
            +:+ "&" +:+ urlencode (kv :: d))
      by (rewrite !append_assoc; reflexivity).
    rewrite !is_ascii_app, !(count_char_app _ (_ +:+ _)), !(count_char_app _ "&").
    rewrite !(query_text_ascii _ (quote_plus_chars _)), Ha.
    rewrite !pair_count by reflexivity.
    rewrite He, Hn, Hq, Hh, Hs, Hp. cbn [length pred count_char Ascii.eqb].
    repeat split; reflexivity.
Qed.

(** X1. The unsigned URL that [_submit] builds adds to the endpoint one
    [?], one [=] for each parameter and one [&] between two parameters, and
    no [#], [/] or space, whatever the keys and values contain; it is ASCII
    exactly when the endpoint is. *)
Theorem unsigned_url_structure (st : state) (endpoint : string) (values : loc) :
  let url := unsigned_url st endpoint values in
  let n := length (dicts st !!! values) in
  count_char "?" url = S (count_char "?" endpoint)
  /\ count_char "=" url = (count_char "=" endpoint + n)%nat
  /\ count_char "&" url = (count_char "&" endpoint + pred n)%nat
  /\ count_char "#" url = count_char "#" endpoint
  /\ count_char "/" url = count_char "/" endpoint
  /\ count_char " " url = count_char " " endpoint
  /\ is_ascii url = is_ascii endpoint.
Proof.
  cbv zeta. unfold unsigned_url.
  destruct (urlencode_structure (dicts st !!! values))
    as (Ha & He & Hn & Hq & Hh & Hs & Hp).
  rewrite !is_ascii_app, !count_char_app, Ha, He, Hn, Hq, Hh, Hs, Hp.
  cbn [count_char Ascii.eqb Bool.eqb andb]. change (is_ascii "?") with true.
  rewrite andb_true_r. repeat split; lia.
Qed.

(** ** Steps of a submission *)

Lemma submit_steps (st : state) (self : loc) (endpoint : string) (values : loc) :
  _submit self endpoint values st
  = match _encode_signed_url self (unsigned_url st endpoint values) st with
    | (Return v, st') => executor_submit self v st'
    | (Raise e, st') => (Raise e, st')
    end.
Proof. reflexivity. Qed.

Lemma coherent_ext (st st' : state) (self : loc) :
  signed_urls st' = signed_urls st -> key_of st' self = key_of st self ->
  coherent st self -> coherent st' self.
Proof. intros Hs Hk Hco url v. rewrite Hs, Hk. apply Hco. Qed.

Lemma encode_effect (st : state) (self : loc) (url : string) :
  let r := _encode_signed_url self url st in
  objects r.2 = objects st
  /\ dicts r.2 = dicts st
  /\ ((length (signed_urls st) <= 128)%nat -> (length (signed_urls r.2) <= 128)%nat)
  /\ (forall self', coherent st self' -> coherent r.2 self')
  /\ (forall e, r.1 = Raise e -> r.2 = st /\ exn_type e = UnicodeEncodeError).
Proof.
  unfold _encode_signed_url, lru_cache.
  destruct (LRU.find (self, url) (signed_urls st)) as [v|] eqn:Hf.
  - cbn [fst snd objects dicts signed_urls set_signed_urls].
    split; [reflexivity|]. split; [reflexivity|]. split; [|split].
    + rewrite (length_touch _ _ _ Hf). auto.
    + intros self' Hco url' v'. cbn [signed_urls set_signed_urls].
      rewrite (find_touch _ _ _ _ Hf). apply Hco.
    + discriminate.
  - rewrite encode_body_spec. destruct (signed (key_of st self) url) as [v|e] eqn:Hs;
      cbn [fst snd objects dicts signed_urls set_signed_urls].
    + split; [reflexivity|]. split; [reflexivity|]. split; [|split].
      * apply length_store. lia.
      * intros self' Hco url' v' Hf'. cbn [signed_urls set_signed_urls] in Hf'.
        apply find_store in Hf' as [[[= -> ->] ->]|Hf']; [exact Hs | apply Hco, Hf'].
      * discriminate.
    + split; [reflexivity|]. split; [reflexivity|]. split; [auto|]. split; [auto|].
      intros e' [= <-]. split; [reflexivity|]. unfold signed in Hs.
      destruct (bytearray_ascii (url +:+ key_of st self)) as [bs|e0] eqn:Hb;
        [discriminate|]. cbn [obind] in Hs. injection Hs as <-.
      unfold bytearray_ascii in Hb.
      destruct (first_bad 0 _) as [[[start stop] c]|]; [|discriminate].
      injection Hb as <-. reflexivity.
Qed.

Lemma executor_submit_effect (st : state) (self : loc) (v : string) :
  let r := executor_submit self v st in
  r.1 = Return (length (queue_of st self))
  /\ dicts r.2 = dicts st
  /\ signed_urls r.2 = signed_urls st
  /\ (forall self', client_fields (objects r.2 !!! self')
                    = client_fields (objects st !!! self'))
  /\ (forall self', queue_of r.2 self'
                    = if decide (self' = self)
                      then (queue_of st self ++ [v])%list
                      else queue_of st self').
Proof.
  unfold executor_submit, queue_of.
  cbn [fst snd objects set_objects dicts signed_urls].
  split; [reflexivity|]. split; [reflexivity|]. split; [reflexivity|].
  split; intros self'; destruct (decide (self' = self)) as [->|Hne].
  - rewrite lookup_total_insert_eq. reflexivity.
  - rewrite lookup_total_insert_ne by congruence. reflexivity.
  - rewrite lookup_total_insert_eq. reflexivity.
  - rewrite lookup_total_insert_ne by congruence. reflexivity.
Qed.

(** What a submission does to the store, for any client [self']. *)
Lemma submit_effect (st : state) (self : loc) (endpoint : string) (values : loc) :
  let r := _submit self endpoint values st in
  dicts r.2 = dicts st
  /\ ((length (signed_urls st) <= 128)%nat -> (length (signed_urls r.2) <= 128)%nat)
  /\ (forall self', client_fields (objects r.2 !!! self')
                    = client_fields (objects st !!! self'))
  /\ (forall self', coherent st self' -> coherent r.2 self')
  /\ (forall self', self' <> self -> queue_of r.2 self' = queue_of st self')
  /\ match r.1 with
     | Return fut =>
         fut = length (queue_of st self)
         /\ exists v,
             (_encode_signed_url self (unsigned_url st endpoint values) st).1
             = Return v
             /\ queue_of r.2 self = (queue_of st self ++ [v])%list
     | Raise e => r.2 = st /\ exn_type e = UnicodeEncodeError
     end.
Proof.
  cbv zeta. rewrite submit_steps.
  pose proof (encode_effect st self (unsigned_url st endpoint values))
    as (Ho & Hd & Hl & Hco & Hr). cbv zeta in Ho, Hd, Hl, Hco, Hr.
  destruct (_encode_signed_url self (unsigned_url st endpoint values) st)
    as [[v|e] st1]; cbn [fst snd] in *.
  - pose proof (executor_submit_effect st1 self v) as (H1 & H2 & H3 & H4 & H5).
    cbv zeta in H1, H2, H3, H4, H5.
    assert (Hq : forall self', queue_of st1 self' = queue_of st self')
      by (intros self'; unfold queue_of; rewrite Ho; reflexivity).
    rewrite H1, H2, H3. split; [exact Hd|]. split; [exact Hl|]. split; [|split; [|split]].
    + intros self'. rewrite H4, Ho. reflexivity.
    + intros self' Hc. apply (coherent_ext st1); [exact H3| |apply Hco, Hc].
      pose proof (H4 self') as Hf. unfold client_fields in Hf.
      unfold key_of. congruence.
    + intros self' Hne. rewrite H5, Hq. destruct (decide (self' = self)); congruence.
    + split; [apply (f_equal (@length string)), Hq|].
      exists v. split; [reflexivity|]. rewrite H5, Hq.
      destruct (decide (self = self)); congruence.
  - destruct (Hr e eq_refl) as [-> He]. repeat split; auto.
Qed.

(** How each builder reaches [_submit]: with the endpoint of its own, on a
    dictionary that begins with the base parameters, in a store that differs
    from the one it started in by that dictionary at most. *)
Section Builder_steps.
Variable _urljoin : string -> string -> string.

Lemma call_assert_fails (self : loc) (b : builder_call) (st : state) :
  asserts_ok b = false ->
  call _urljoin self b st = (Raise (Exn AssertionError ""), st).
Proof.
  destruct b; try discriminate. cbn [asserts_ok call]. intros H.
  unfold data_store_update, py_assert. rewrite bind_run, H. reflexivity.
Qed.

Lemma with_values_lookup (st : state) (d : dict) :
  dicts (with_values st d) !!! fresh_values st = d.
Proof. unfold with_values. cbn [dicts set_dicts]. apply lookup_total_insert_eq. Qed.

Lemma call_submits (self : loc) (b : builder_call) (st : state) :
  initial_values st self -> asserts_ok b = true ->
  let c := objects st !!! self in
  exists values st1 ext,
    call _urljoin self b st
    = _submit self (_urljoin (_base_url c) (endpoint_suffix b)) values st1
    /\ objects st1 = objects st
    /\ signed_urls st1 = signed_urls st
    /\ dicts st1 !!! values = (base_params c ++ ext)%list
    /\ (st1 = st \/ exists d, st1 = with_values st d).
Proof.
  intros Hinit Hok c. pose proof (initial_values_total _ _ Hinit) as Hbase.
  subst c.
  destruct b; cbn [call endpoint_suffix asserts_ok] in *;
    try (unfold session_open, session_ping, session_close, trophies_fetch,
           trophies_add_achieved, scores_fetch, scores_add, data_store_fetch,
           data_store_set, data_store_remove, data_store_get_keys;
         exec; rewrite Hbase; exec_branches;
         (eexists (fresh_values st), (with_values st _), _;
          split; [reflexivity|]; split; [reflexivity|]; split; [reflexivity|];
          split; [rewrite with_values_lookup; cbn; reflexivity | eauto])).
  - unfold scores_tables. exec. exists (_values (objects st !!! self)), st, [].
    split; [reflexivity|]. split; [reflexivity|]. split; [reflexivity|].
    split; [rewrite Hbase; reflexivity | auto].
  - unfold data_store_update, py_assert. rewrite bind_run, Hok.
    exec; rewrite Hbase; exec_branches;
      (eexists (fresh_values st), (with_values st _), _;
       split; [reflexivity|]; split; [reflexivity|]; split; [reflexivity|];
       split; [rewrite with_values_lookup; cbn; reflexivity | eauto]).
Qed.
End Builder_steps.

(** ** Calls and programs *)

Lemma signed_inv (key url v : string) :
  signed key url = Return v ->
  is_ascii (url +:+ key) = true
  /\ v = url +:+ "&signature=" +:+ signature key url.
Proof.
  unfold signed, bytearray_ascii, is_ascii.
  destruct (first_bad 0 (codes (url +:+ key))) as [[[? ?] ?]|] eqn:E;
    [discriminate|]. cbn [obind]. intros [= <-].
  split; [apply first_bad_none in E; exact E | reflexivity].
Qed.

Lemma lower_hex_ascii (s : string) : is_lower_hex s = true -> is_ascii s = true.
Proof.
  unfold is_lower_hex, is_ascii. apply forallb_weaken. intros x.
  rewrite !orb_true_iff, !andb_true_iff, !Z.leb_le, Z.ltb_lt. lia.
Qed.


Lemma append_nil_r (s : string) : s +:+ "" = s.
Proof.
  induction s as [|a s IH]; [reflexivity|].
  change (String a s +:+ "") with (String a (s +:+ "")). rewrite IH. reflexivity.
Qed.

Lemma urlencode_base (c : GameJoltAPI) (ext : dict) :
  urlencode (base_params c ++ ext)
  = "format=json&game_id=" +:+ quote_plus (py_str (_game_id c))
    +:+ match ext with [] => "" | _ => "&" +:+ urlencode ext end.
Proof.
  unfold base_params. cbn [app]. destruct ext as [|kv ext].
  - unfold urlencode. cbn [map join fst snd py_str].
    change (quote_plus "format") with "format".
    change (quote_plus "json") with "json".
    change (quote_plus "game_id") with "game_id".
    rewrite append_nil_r. reflexivity.
  - rewrite !urlencode_cons. cbn [py_str].
    change (quote_plus "format") with "format".
    change (quote_plus "json") with "json".
    change (quote_plus "game_id") with "game_id".
    reflexivity.
Qed.

Lemma with_values_coherent (st : state) (d : dict) (self : loc) :
  coherent st self -> coherent (with_values st d) self.
Proof. apply coherent_ext; reflexivity. Qed.

Section Programs.
Variable _urljoin : string -> string -> string.

Lemma call_reaches_submit (self : loc) (b : builder_call) (st : state) :
  asserts_ok b = true ->
  exists values st1,
    call _urljoin self b st
    = _submit self (_urljoin (_base_url (objects st !!! self)) (endpoint_suffix b))
        values st1
    /\ (st1 = st \/ exists d, st1 = with_values st d).
Proof.
  intros Hok.
  assert (Hfresh : forall endpoint d,
             exists values st1,
               _submit self endpoint (fresh_values st) (with_values st d)
               = _submit self endpoint values st1
               /\ (st1 = st \/ exists d', st1 = with_values st d')).
  { intros endpoint d. exists (fresh_values st), (with_values st d).
    split; [reflexivity | right; exists d; reflexivity]. }
  destruct b; cbn [call endpoint_suffix asserts_ok] in *.
  - unfold session_open. exec_branches; apply Hfresh.
  - unfold session_ping. exec_branches; apply Hfresh.
  - unfold session_close. exec_branches; apply Hfresh.
  - unfold trophies_fetch. exec_branches; apply Hfresh.
  - unfold trophies_add_achieved. exec_branches; apply Hfresh.
  - unfold scores_fetch. exec_branches; apply Hfresh.
  - unfold scores_add. exec_branches; apply Hfresh.
  - unfold scores_tables. exec. eexists _, st. split; [reflexivity | auto].
  - unfold data_store_fetch. exec_branches; apply Hfresh.
  - unfold data_store_set. exec_branches; apply Hfresh.
  - unfold data_store_update, py_assert. rewrite bind_run, Hok.
    exec_branches; apply Hfresh.
  - unfold data_store_remove. exec_branches; apply Hfresh.
  - unfold data_store_get_keys. exec_branches; apply Hfresh.
Qed.

(** What one call does to the store, seen from any client [self']. *)
Lemma call_effect (self self' : loc) (b : builder_call) (st : state) :
  let r := call _urljoin self b st in
  ((length (signed_urls st) <= 128)%nat -> (length (signed_urls r.2) <= 128)%nat)
  /\ client_fields (objects r.2 !!! self') = client_fields (objects st !!! self')
  /\ (coherent st self' -> coherent r.2 self')
  /\ (forall l, is_Some (dicts st !! l) -> dicts r.2 !! l = dicts st !! l)
  /\ (self' <> self -> queue_of r.2 self' = queue_of st self')
  /\ match r.1 with
     | Return fut =>
         fut = length (queue_of st self)
         /\ exists v, queue_of r.2 self = (queue_of st self ++ [v])%list
     | Raise e =>
         objects r.2 = objects st /\ signed_urls r.2 = signed_urls st
         /\ ((exn_type e = AssertionError /\ asserts_ok b = false)
             \/ (exn_type e = UnicodeEncodeError /\ asserts_ok b = true))
     end.
Proof.
  cbv zeta. destruct (asserts_ok b) eqn:Hok.
  - destruct (call_reaches_submit self b st Hok) as (values & st1 & -> & Hst1).
    pose proof (submit_effect st1 self
                  (_urljoin (_base_url (objects st !!! self)) (endpoint_suffix b))
                  values) as (Hd & Hl & Hf & Hco & Hq & Hr).
    cbv zeta in Hd, Hl, Hf, Hco, Hq, Hr.
    assert (Ho : objects st1 = objects st /\ signed_urls st1 = signed_urls st
                 /\ (forall l, is_Some (dicts st !! l) ->
                                dicts st1 !! l = dicts st !! l)).
    { destruct Hst1 as [->|(d & ->)]; [auto|].
      split; [reflexivity|]. split; [reflexivity|]. apply with_values_other. }
    destruct Ho as (Ho & Hs & Hdl).
    assert (Hqs : forall x, queue_of st1 x = queue_of st x)
      by (intros x; unfold queue_of; rewrite Ho; reflexivity).
    split; [rewrite <- Hs; exact Hl|]. split; [rewrite Hf, Ho; reflexivity|].
    split; [intros Hc; apply Hco, (coherent_ext st); auto;
            unfold key_of; rewrite Ho; reflexivity|].
    split; [intros l Hl'; rewrite Hd; apply Hdl, Hl'|].
    split; [intros Hne; rewrite (Hq _ Hne); apply Hqs|].
    destruct (_submit self _ values st1).1 as [fut|e].
    + destruct Hr as (-> & v & _ & Hv). rewrite Hqs in Hv. rewrite Hqs. eauto.
    + destruct Hr as (-> & He). auto.
  - rewrite (call_assert_fails _urljoin self b st Hok). cbn [fst snd].
    repeat split; auto.
Qed.

(** X2. Whatever builders a program calls on whatever clients, and whether
    they return or raise, a client that had its base parameters, a coherent
    part of the memo table and a table of at most 128 entries still has them
    afterwards, and its [_game_id], [_private_key], [_base_url], [username],
    [token] and [_values] are what they were. *)
Theorem run_keeps_clients
  (calls : list (loc * builder_call)) (st : state) (self : loc) :
  client_ok st self ->
  client_ok (run _urljoin calls st) self
  /\ client_fields (objects (run _urljoin calls st) !!! self)
     = client_fields (objects st !!! self).
Proof.
  revert st. induction calls as [|[caller b] calls IH]; intros st Hok; [auto|].
  cbn [run].
  pose proof (call_effect caller self b st) as (Hl & Hf & Hco & Hd & _).
  cbv zeta in Hl, Hf, Hco, Hd. destruct Hok as (Hinit & Hc & Hlen).
  assert (Hok' : client_ok (call _urljoin caller b st).2 self).
  { split; [|split; [apply Hco, Hc | apply Hl, Hlen]].
    unfold initial_values in *. cbv zeta in *. unfold client_fields in Hf.
    injection Hf as Hg _ _ _ _ Hv. rewrite Hg, Hv, Hd; [exact Hinit|].
    rewrite Hinit. eauto. }
  destruct (IH _ Hok') as [H1 H2]. split; [exact H1|]. rewrite H2. exact Hf.
Qed.

(** X3. The calls that wait for the worker of a client are only ever
    added to, at the end: after any program the queue begins with what it
    was, calls on other clients add nothing to it, and it has grown by at
    most one entry per call on the client. *)
Theorem run_appends_to_queue
  (calls : list (loc * builder_call)) (st : state) (self : loc) :
  queue_of st self `prefix_of` queue_of (run _urljoin calls st) self
  /\ (length (queue_of (run _urljoin calls st) self)
      <= length (queue_of st self) + length (calls_on self calls))%nat
  /\ (calls_on self calls = [] ->
      queue_of (run _urljoin calls st) self = queue_of st self).
Proof.
  revert st. induction calls as [|[caller b] calls IH]; intros st.
  - cbn [run]. split; [reflexivity|]. split; [lia | reflexivity].
  - cbn [run]. destruct (IH (call _urljoin caller b st).2) as (Hp & Hn & He).
    pose proof (call_effect caller self b st) as (_ & _ & _ & _ & Hq & Hr).
    cbv zeta in Hq, Hr. unfold calls_on in *. cbn [List.filter fst].
    destruct (decide (caller = self)) as [->|Hne].
    + rewrite bool_decide_eq_true_2 by reflexivity. cbn [map length].
      assert (Hstep : exists k, queue_of (call _urljoin self b st).2 self
                                = (queue_of st self ++ k)%list
                                /\ (length k <= 1)%nat).
      { destruct (call _urljoin self b st).1 as [fut|e].
        - destruct Hr as (_ & v & ->). exists [v]. split; [reflexivity | cbn; lia].
        - destruct Hr as (Ho & _). exists []. rewrite app_nil_r.
          split; [unfold queue_of; rewrite Ho; reflexivity | cbn; lia]. }
      destruct Hstep as (k & Hk & Hlen). rewrite Hk in Hp, Hn.
      split; [|split; [|discriminate]].
      * etransitivity; [|exact Hp]. apply prefix_app_r. reflexivity.
      * rewrite length_app in Hn. lia.
    + rewrite bool_decide_eq_false_2 by exact Hne.
      rewrite (Hq (not_eq_sym Hne)) in Hp, Hn, He. auto.
Qed.

End Programs.

(** ** Requests *)

Section Requests.
Variable _urljoin : string -> string -> string.

(** X5. The call that a builder puts in the queue is, for every builder,
    the endpoint, [?format=json&game_id=] and the encoded game identifier,
    the builder's own parameters if any, and [&signature=] with the digest of
    all that followed by the private key; it is ASCII. *)
Theorem request_url (self : loc) (b : builder_call) (st : state) (fut : Future) :
  client_ok st self ->
  (call _urljoin self b st).1 = Return fut ->
  let c := objects st !!! self in
  exists query,
    let unsigned :=
      _urljoin (_base_url c) (endpoint_suffix b)
      +:+ "?format=json&game_id=" +:+ quote_plus (py_str (_game_id c)) +:+ query in
    let url := unsigned +:+ "&signature=" +:+ signature (_private_key c) unsigned in
    queue_of (call _urljoin self b st).2 self !! fut = Some url
    /\ is_ascii url = true
    /\ (query = "" \/ exists parameters, query = "&" +:+ parameters).
Proof.
  intros (Hinit & Hco & _) Hret c.
  destruct (asserts_ok b) eqn:Hok;
    [|rewrite (call_assert_fails _urljoin self b st Hok) in Hret; discriminate].
  destruct (call_submits _urljoin self b st Hinit Hok)
    as (values & st1 & ext & E & Ho & Hs & Hd & _). cbv zeta in E. fold c in E, Hd.
  assert (Hco1 : coherent st1 self).
  { apply (coherent_ext st); auto. unfold key_of. rewrite Ho. reflexivity. }
  pose proof (submit_spec st1 self (_urljoin (_base_url c) (endpoint_suffix b))
                values Hco1) as Hsub.
  assert (Hu : unsigned_url st1 (_urljoin (_base_url c) (endpoint_suffix b)) values
               = _urljoin (_base_url c) (endpoint_suffix b)
                 +:+ "?format=json&game_id=" +:+ quote_plus (py_str (_game_id c))
                 +:+ match ext with [] => "" | _ => "&" +:+ urlencode ext end).
  { unfold unsigned_url. rewrite Hd, urlencode_base. reflexivity. }
  assert (Hk : key_of st1 self = _private_key c)
    by (unfold key_of; rewrite Ho; reflexivity).
  rewrite Hu, Hk in Hsub. rewrite E in Hret |- *.
  exists (match ext with [] => "" | _ => "&" +:+ urlencode ext end). cbv zeta.
  set (unsigned := _urljoin (_base_url c) (endpoint_suffix b)
                   +:+ "?format=json&game_id="
                   +:+ quote_plus (py_str (_game_id c))
                   +:+ match ext with [] => "" | _ => "&" +:+ urlencode ext end)
    in *.
  destruct (signed (_private_key c) unsigned) as [v|e] eqn:Hv;
    [|rewrite Hsub in Hret; discriminate].
  destruct Hsub as (c' & Hsub & _). rewrite Hsub in Hret |- *.
  apply signed_inv in Hv as [Hascii ->].
  pose proof (executor_submit_effect (set_signed_urls c' st1) self
                (unsigned +:+ "&signature=" +:+ signature (_private_key c) unsigned))
    as (Hr & _ & _ & _ & Hq). cbv zeta in Hr, Hq.
  rewrite Hr in Hret. injection Hret as <-.
  split; [|split].
  - rewrite Hq. destruct (decide (self = self)); [|congruence].
    rewrite lookup_app_r by reflexivity. rewrite Nat.sub_diag. reflexivity.
  - rewrite is_ascii_app in Hascii. apply andb_true_iff in Hascii as [Hurl _].
    rewrite !is_ascii_app, Hurl. cbn [andb].
    change (is_ascii "&signature=") with true. cbn [andb].
    apply lower_hex_ascii, hex_lower.
  - destruct ext; [left; reflexivity | right; eauto].
Qed.


(** X10. The data-store builders put [username] and [user_token] in the
    request exactly when both are truthy and [public] is not; a truthy
    [public] leaves both out even for a client that has them. *)
Theorem data_store_identity
  (self : loc) (b : builder_call) (public : pyval) (st : state) :
  public_arg b = Some public ->
  asserts_ok b = true ->
  initial_values st self ->
  let c := objects st !!! self in
  exists d,
    call _urljoin self b st
    = _submit self (_urljoin (_base_url c) (endpoint_suffix b)) (fresh_values st)
        (with_values st d)
    /\ if truthy (username c) && truthy (token c) && negb (truthy public)
       then dict_get "username" d = Some (username c)
            /\ dict_get "user_token" d = Some (token c)
       else dict_get "username" d = None /\ dict_get "user_token" d = None.
Proof.
  intros Hp Hok Hinit c. apply initial_values_total in Hinit. subst c.
  destruct b; try discriminate; injection Hp as ->;
    cbn [call endpoint_suffix asserts_ok] in *;
    unfold data_store_fetch, data_store_set, data_store_update, data_store_remove,
      data_store_get_keys, py_assert; try (rewrite bind_run, Hok);
    exec; rewrite Hinit, !truthy_py_and; cbn [py_not truthy];
    destruct (truthy (username _) && truthy (token _) && negb (truthy public));
    exec; (eexists; split; [reflexivity | cbn; auto]).
Qed.

(** X11. The session and trophy builders put [username] and [user_token]
    in the request whatever they are: for a client without a player the
    request carries the values [None]. *)
Theorem credentials_always_sent (self : loc) (b : builder_call) (st : state) :
  sends_credentials b = true ->
  initial_values st self ->
  let c := objects st !!! self in
  exists d,
    call _urljoin self b st
    = _submit self (_urljoin (_base_url c) (endpoint_suffix b)) (fresh_values st)
        (with_values st d)
    /\ dict_get "username" d = Some (username c)
    /\ dict_get "user_token" d = Some (token c)
    /\ dict_get "guest" d = None.
Proof.
  intros Hb Hinit c. apply initial_values_total in Hinit. subst c.
  destruct b; try discriminate; cbn [call endpoint_suffix];
    unfold session_open, session_ping, session_close, trophies_fetch,
      trophies_add_achieved;
    exec; rewrite Hinit; exec_branches;
    (eexists; split; [reflexivity | cbn; auto]).
Qed.

(** X12. [session_ping] sends [status=idle] for a truthy [idle] and
    [status=active] otherwise. *)
Theorem session_ping_status (self : loc) (idle : pyval) (st : state) :
  initial_values st self ->
  let c := objects st !!! self in
  exists d,
    session_ping _urljoin self idle st
    = _submit self (_urljoin (_base_url c) "sessions/ping/") (fresh_values st)
        (with_values st d)
    /\ dict_get "status" d = Some (PStr (if truthy idle then "idle" else "active")).
Proof.
  intros Hinit c. apply initial_values_total in Hinit. subst c.
  unfold session_ping. exec. rewrite Hinit.
  destruct (truthy idle); exec; (eexists; split; [reflexivity | reflexivity]).
Qed.

(** X13. [scores_fetch] always sends [limit] and sends [table_id] only when
    it is truthy (a [table_id] of [0] or [""] is left out, like [None]); it
    sends no [username], [user_token] or [guest]. *)
Theorem scores_fetch_parameters (self : loc) (table_id limit : pyval) (st : state) :
  initial_values st self ->
  let c := objects st !!! self in
  exists d,
    scores_fetch _urljoin self table_id limit st
    = _submit self (_urljoin (_base_url c) "scores/") (fresh_values st)
        (with_values st d)
    /\ dict_get "limit" d = Some limit
    /\ dict_get "table_id" d = (if truthy table_id then Some table_id else None)
    /\ dict_get "username" d = None
    /\ dict_get "user_token" d = None
    /\ dict_get "guest" d = None.
Proof.
  intros Hinit c. apply initial_values_total in Hinit. subst c.
  unfold scores_fetch. exec. rewrite Hinit.
  destruct (truthy table_id); exec; (eexists; split; [reflexivity | cbn; auto]).
Qed.

(** X14. [scores_add] always sends [sort]; [score] is the [score] argument
    when that is truthy and the value of [sort] otherwise (so for [None],
    [0] and [""]); [table_id] is sent only when it is truthy. *)
Theorem scores_add_parameters
  (self : loc) (sort score table_id : pyval) (st : state) :
  initial_values st self ->
  let c := objects st !!! self in
  exists d,
    scores_add _urljoin self sort score table_id st
    = _submit self (_urljoin (_base_url c) "scores/add/") (fresh_values st)
        (with_values st d)
    /\ dict_get "sort" d = Some sort
    /\ dict_get "score" d = Some (if truthy score then score else sort)
    /\ dict_get "table_id" d = (if truthy table_id then Some table_id else None).
Proof.
  intros Hinit c. apply initial_values_total in Hinit. subst c.
  unfold scores_add. exec. rewrite Hinit. unfold py_or.
  destruct (truthy (py_and _ _)); exec;
    destruct (truthy table_id); exec;
    (eexists; split; [reflexivity | cbn; auto]).
Qed.

(** X15. For one of the six operation names [data_store_update] submits a
    request that carries [key], [operation] and [value] as given. *)
Theorem data_store_update_parameters
  (self : loc) (key operation value public : pyval) (st : state) :
  initial_values st self ->
  py_in operation operations = true ->
  let c := objects st !!! self in
  exists d,
    data_store_update _urljoin self key operation value public st
    = _submit self (_urljoin (_base_url c) "data-store/update/") (fresh_values st)
        (with_values st d)
    /\ dict_get "key" d = Some key
    /\ dict_get "operation" d = Some operation
    /\ dict_get "value" d = Some value
    /\ exists name, operation = PStr name /\ In name operations.
Proof.
  intros Hinit Hop c. apply initial_values_total in Hinit. subst c.
  unfold data_store_update, py_assert. rewrite bind_run, Hop.
  exec. rewrite Hinit.
  assert (Hname : exists name, operation = PStr name /\ In name operations).
  { unfold py_in in Hop. apply existsb_exists in Hop as (name & Hin & E).
    destruct operation as [| | |y]; try discriminate.
    apply String.eqb_eq in E. subst y. eauto. }
  exec_branches; (eexists; split; [reflexivity | cbn; auto]).
Qed.
End Requests.

Lemma submit_enqueues
  (st : state) (self : loc) (endpoint : string) (values : loc) (fut : Future) :
  coherent st self ->
  (_submit self endpoint values st).1 = Return fut ->
  let unsigned := unsigned_url st endpoint values in
  queue_of (_submit self endpoint values st).2 self !! fut
  = Some (unsigned +:+ "&signature=" +:+ signature (key_of st self) unsigned).
Proof.
  intros Hco Hret unsigned.
  pose proof (submit_spec st self endpoint values Hco) as Hsub. fold unsigned in Hsub.
  destruct (signed (key_of st self) unsigned) as [v|e] eqn:Hv;
    [|rewrite Hsub in Hret; discriminate].
  destruct Hsub as (c' & Hsub & _). rewrite Hsub in Hret |- *.
  apply signed_inv in Hv as [_ ->].
  pose proof (executor_submit_effect (set_signed_urls c' st) self
                (unsigned +:+ "&signature=" +:+ signature (key_of st self) unsigned))
    as (Hr & _ & _ & _ & Hq). cbv zeta in Hr, Hq.
  rewrite Hr in Hret. injection Hret as <-. rewrite Hq.
  destruct (decide (self = self)); [|congruence].
  rewrite lookup_app_r by reflexivity. rewrite Nat.sub_diag. reflexivity.
Qed.

Section Tables.
Variable _urljoin : string -> string -> string.

(** X16. [scores_tables] submits [self._values] itself, not a copy: the
    store is not touched before the submission, and the request is the
    endpoint with the two base parameters and the signature, nothing more. *)
Theorem scores_tables_request (self : loc) (st : state) (fut : Future) :
  client_ok st self ->
  (scores_tables _urljoin self st).1 = Return fut ->
  let c := objects st !!! self in
  let unsigned :=
    _urljoin (_base_url c) "scores/tables/"
    +:+ "?format=json&game_id=" +:+ quote_plus (py_str (_game_id c)) in
  scores_tables _urljoin self st
  = _submit self (_urljoin (_base_url c) "scores/tables/") (_values c) st
  /\ dicts (scores_tables _urljoin self st).2 = dicts st
  /\ queue_of (scores_tables _urljoin self st).2 self !! fut
     = Some (unsigned +:+ "&signature=" +:+ signature (_private_key c) unsigned).
Proof.
  intros (Hinit & Hco & _) Hret. cbv zeta.
  assert (E : scores_tables _urljoin self st
              = _submit self (_urljoin (_base_url (objects st !!! self))
                                "scores/tables/")
                  (_values (objects st !!! self)) st)
    by reflexivity.
  split; [exact E|]. rewrite E in Hret |- *.
  split; [apply submit_effect|].
  rewrite (submit_enqueues st self _ _ fut Hco Hret). cbv zeta.
  unfold unsigned_url, key_of. rewrite (initial_values_total _ _ Hinit).
  change [("format", PStr "json"); ("game_id", _game_id (objects st !!! self))]
    with (base_params (objects st !!! self) ++ [])%list.
  rewrite urlencode_base, append_nil_r. reflexivity.
Qed.
End Tables.

(** ** Memoisation, construction, responses *)

(** X7. After [_encode_signed_url] has returned a signed URL that URL is
    the first entry of the memo table, the table has grown by one entry at
    most, and signing the same URL again returns the same result without
    changing anything. *)
Theorem encode_signed_url_again
  (st st' : state) (self : loc) (url v : string) :
  _encode_signed_url self url st = (Return v, st') ->
  head (signed_urls st') = Some ((self, url), v)
  /\ (length (signed_urls st') <= S (length (signed_urls st)))%nat
  /\ _encode_signed_url self url st' = (Return v, st').
Proof.
  unfold _encode_signed_url, lru_cache.
  assert (Hagain : forall c rest,
             signed_urls c = ((self, url), v) :: rest ->
             match LRU.find (self, url) (signed_urls c) with
             | Some result =>
                 (Return result,
                  set_signed_urls (LRU.touch (self, url) result (signed_urls c)) c)
             | None => (Raise (Exn KeyError ""), c)
             end = (Return v, c)).
  { intros c rest Hc. rewrite Hc. unfold LRU.touch. cbn [LRU.find LRU.remove].
    destruct (decide ((self, url) = (self, url))); [|congruence].
    rewrite <- Hc. rewrite set_signed_urls_id. reflexivity. }
  destruct (LRU.find (self, url) (signed_urls st)) as [v0|] eqn:Hf.
  - intros [= -> <-]. cbn [signed_urls set_signed_urls].
    split; [reflexivity|]. split; [rewrite (length_touch _ _ _ Hf); lia|].
    specialize (Hagain (set_signed_urls (LRU.touch (self, url) v (signed_urls st)) st)
                  (LRU.remove (self, url) (signed_urls st)) eq_refl).
    destruct (LRU.find _ _); [exact Hagain | discriminate].
  - rewrite encode_body_spec. destruct (signed (key_of st self) url) as [v0|e];
      [|discriminate].
    intros [= -> <-]. cbn [signed_urls set_signed_urls].
    unfold LRU.store. rewrite Hf.
    destruct (128 <=? length (signed_urls st))%nat eqn:Hfull.
    + split; [reflexivity|]. split.
      { cbn [length]. rewrite removelast_firstn_len, length_take. lia. }
      specialize (Hagain (set_signed_urls
                            (((self, url), v) :: removelast (signed_urls st)) st)
                    (removelast (signed_urls st)) eq_refl).
      destruct (LRU.find _ _); [exact Hagain | discriminate].
    + split; [reflexivity|]. split; [cbn [length]; lia|].
      specialize (Hagain (set_signed_urls (((self, url), v) :: signed_urls st) st)
                    (signed_urls st) eq_refl).
      destruct (LRU.find _ _); [exact Hagain | discriminate].
Qed.

(** X8. [GameJoltAPI(...)] returns a new client with the given fields, the
    fixed base URL, the base parameters [format] and [game_id] and an empty
    queue; the clients and dictionaries that were there and the memo table
    are as they were, so a client that was in order still is. *)
Theorem new_client (game_id : pyval) (private_key : string)
  (username token : pyval) (st : state) :
  let r := new game_id private_key username token st in
  let self := fresh (dom (objects st)) in
  r.1 = Return self
  /\ objects st !! self = None
  /\ initial_values r.2 self
  /\ client_fields (objects r.2 !!! self)
     = (game_id, private_key, "http://api.gamejolt.com/api/game/v1/",
        username, token, fresh_values st)
  /\ queue_of r.2 self = []
  /\ signed_urls r.2 = signed_urls st
  /\ (forall l, is_Some (objects st !! l) -> objects r.2 !! l = objects st !! l)
  /\ (forall l, is_Some (dicts st !! l) -> dicts r.2 !! l = dicts st !! l)
  /\ (forall l, is_Some (objects st !! l) -> client_ok st l -> client_ok r.2 l).
Proof.
  cbv zeta.
  assert (Hfo : forall l, is_Some (objects st !! l) -> l <> fresh (dom (objects st))).
  { intros l Hl%elem_of_dom ->. exact (is_fresh _ Hl). }
  assert (Hfd : forall l, is_Some (dicts st !! l) -> l <> fresh (dom (dicts st))).
  { intros l Hl%elem_of_dom ->. exact (is_fresh _ Hl). }
  unfold new, __init__, initial_values, queue_of, client_fields, fresh_values.
  rewrite bind_run. cbn [fst snd objects dicts signed_urls mret M_ret].
  rewrite lookup_total_insert_eq.
  cbn [_values _game_id _private_key _base_url _executor work_queue].
  rewrite lookup_insert_eq.
  split; [reflexivity|]. split; [apply not_elem_of_dom, is_fresh|].
  do 4 (split; [reflexivity|]).
  split; [intros l Hl; apply lookup_insert_ne; apply not_eq_sym, Hfo, Hl|].
  split; [intros l Hl; apply lookup_insert_ne; apply not_eq_sym, Hfd, Hl|].
  intros l Hl (Hinit & Hco & Hlen). unfold client_ok, initial_values, coherent, key_of.
  cbn [objects dicts signed_urls].
  rewrite lookup_total_insert_ne by (apply not_eq_sym, Hfo, Hl).
  split; [|split; [exact Hco | exact Hlen]].
  unfold initial_values in Hinit. cbv zeta in Hinit.
  rewrite lookup_insert_ne; [exact Hinit|].
  apply not_eq_sym, Hfd. rewrite Hinit. eauto.
Qed.

Section Responses.
Variable http_response : Type.
Variable _urlopen : string -> outcome http_response.
Variable read : http_response -> outcome (list Z).
Variable _json_loads : list Z -> outcome json.

(** X9. What [_get_response] returns is either the ["response"] entry of a
    body that was fetched, read and decoded to a mapping, or the failure
    mapping of the exception that one of these steps raised; nothing else. *)
Theorem get_response_cases (signed_url : string) (result : json) :
  _get_response http_response _urlopen read _json_loads signed_url = Return result ->
  (exists r body d,
      _urlopen signed_url = Return r /\ read r = Return body
      /\ _json_loads body = Return (JDict d)
      /\ json_get "response" d = Some result)
  \/ (exists e, fails http_response _urlopen read _json_loads signed_url e
                /\ result = failure e).
Proof.
  unfold _get_response.
  destruct (_urlopen signed_url) as [r|e] eqn:H1; cbn [obind try_except].
  2: { intros [= <-]. right. exists e. split; [apply fails_urlopen, H1 | reflexivity]. }
  destruct (read r) as [body|e] eqn:H2; cbn [obind try_except].
  2: { intros [= <-]. right. exists e.
       split; [eapply fails_read; eauto | reflexivity]. }
  destruct (_json_loads body) as [decoded|e] eqn:H3; cbn [obind try_except].
  2: { intros [= <-]. right. exists e.
       split; [eapply fails_loads; eauto | reflexivity]. }
  destruct (getitem decoded "response") as [v|e] eqn:H4; cbn [obind try_except].
  2: { intros [= <-]. right. exists e.
       split; [eapply fails_getitem; eauto | reflexivity]. }
  intros [= <-]. left. destruct decoded as [| | | | | |d]; try discriminate.
  cbn [getitem] in H4. destruct (json_get "response" d) as [v'|] eqn:H5;
    [|discriminate]. injection H4 as <-. eauto 8.
Qed.
End Responses.

(** * The properties on concrete inputs *)

Example sha1_abc :
  SHA1.hexdigest (codes "abc") = "a9993e364706816aba3e25717850c26c9cd0d89d".
Proof. vm_compute. reflexivity. Qed.

Example sha1_two_blocks :
  SHA1.hexdigest (codes "abcdbcdecdefdefgefghfghighijhijkijkljklmklmnlmnomnopnopq")
  = "84983e441c3bd26ebaae4aa1f95129e5e54670f1".
Proof. vm_compute. reflexivity. Qed.

Example urlencode_escapes :
  urlencode [("format", PStr "json"); ("game_id", PInt 123); ("limit", PInt (-3));
             ("a b", PStr "x&y/z~"); ("username", PNone)]
  = "format=json&game_id=123&limit=-3&a+b=x%26y%2Fz~&username=None".
Proof. vm_compute. reflexivity. Qed.

Example new_sample :
  (new (PStr "123") "secret" PNone PNone empty_state).1 = Return sample_self.
Proof. vm_compute. reflexivity. Qed.

(** [scores_fetch(table_id=5, limit=3)] for game ["123"] with key
    ["secret"]. *)
Example scores_fetch_request :
  queue_of (scores_fetch urljoin_dir sample_self (PInt 5) (PInt 3) sample_state).2
           sample_self
  = ["http://api.gamejolt.com/api/game/v1/scores/?format=json&game_id=123&limit=3&table_id=5&signature=e0ebc145af1e45e7ff9c78a830c8569681de49e8"].
Proof. vm_compute. reflexivity. Qed.

Lemma sample_coherent : coherent sample_state sample_self.
Proof. apply coherent_empty. reflexivity. Qed.

Lemma encode_signed_url_coherent (st : state) (self : loc) (url : string) :
  coherent st self -> coherent (_encode_signed_url self url st).2 self.
Proof.
  intros Hco. destruct (encode_signed_url_spec st self url Hco) as (c' & -> & H & _).
  exact H.
Qed.

Lemma encode_signed_url_deterministic_witness :
  let url := "http://api.gamejolt.com/api/game/v1/scores/?format=json&game_id=123&limit=3&table_id=5" in
  let st2 := (_encode_signed_url sample_self
                "http://api.gamejolt.com/api/game/v1/scores/tables/?format=json&game_id=123"
                sample_state).2 in
  (_encode_signed_url sample_self url sample_state).1
  = Return (url +:+ "&signature=e0ebc145af1e45e7ff9c78a830c8569681de49e8")
  /\ (_encode_signed_url sample_self url st2).1
     = (_encode_signed_url sample_self url sample_state).1.
Proof.
  intros url st2.
  destruct (encode_signed_url_deterministic sample_state st2 sample_self url)
    as (H1 & H2 & _).
  - vm_compute. reflexivity.
  - exact sample_coherent.
  - apply encode_signed_url_coherent, sample_coherent.
  - vm_compute. reflexivity.
  - split; [|exact H2]. rewrite H1. vm_compute. reflexivity.
Defined.

(** A URL without a query string is signed with [&] all the same. *)
Lemma signature_separator_counterexample :
  let url := "http://api.gamejolt.com/api/game/v1/scores/" in
  let r := (_encode_signed_url sample_self url sample_state).1 in
  has_char "?" url = false
  /\ r = Return "http://api.gamejolt.com/api/game/v1/scores/&signature=d8123ccbd20499d1041e71678e33a6c4a201cd5c"
  /\ r <> Return (url +:+ "?" +:+ urlencode [("signature", PStr (signature "secret" url))]).
Proof.
  vm_compute. split; [reflexivity|]. split; [reflexivity|]. discriminate.
Qed.

Lemma signature_separator_witness :
  let endpoint := "http://api.gamejolt.com/api/game/v1/scores/tables/" in
  let values := _values (objects sample_state !!! sample_self) in
  coherent sample_state sample_self
  /\ has_char "?" (unsigned_url sample_state endpoint values) = true
  /\ queue_of (_submit sample_self endpoint values sample_state).2 sample_self
     = ["http://api.gamejolt.com/api/game/v1/scores/tables/?format=json&game_id=123&signature="
        +:+ signature "secret" "http://api.gamejolt.com/api/game/v1/scores/tables/?format=json&game_id=123"].
Proof.
  intros endpoint values. split; [exact sample_coherent|].
  destruct (signature_separator sample_state sample_self endpoint endpoint values
              sample_coherent) as (_ & Hq & Hsub).
  split; [exact Hq|]. apply Hsub. vm_compute. reflexivity.
Defined.

Lemma submit_encoding_error_witness :
  let endpoint := "http://api.gamejolt.com/api/game/v1/scores/tables/" in
  let values := _values (objects accent_state !!! sample_self) in
  let r := _submit sample_self endpoint values accent_state in
  let r' := _submit sample_self endpoint values sample_state in
  (coherent accent_state sample_self
   /\ (exists e, r.1 = Raise e /\ exn_type e = UnicodeEncodeError)
   /\ r.2 = accent_state)
  /\ (coherent sample_state sample_self
      /\ exists fut, r'.1 = Return fut
         /\ queue_of r'.2 sample_self
            = ["http://api.gamejolt.com/api/game/v1/scores/tables/?format=json&game_id=123&signature="
               +:+ signature "secret" "http://api.gamejolt.com/api/game/v1/scores/tables/?format=json&game_id=123"]).
Proof.
  intros endpoint values r r'.
  assert (Hco : coherent accent_state sample_self)
    by (apply coherent_empty; reflexivity).
  split; (split; [first [exact Hco | exact sample_coherent]|]).
  - exact (submit_encoding_error accent_state sample_self endpoint values Hco).
  - exact (submit_encoding_error sample_state sample_self endpoint values
             sample_coherent).
Defined.

(** The first of 129 different URLs is in the table after it is signed and
    is gone once the other 128 have been signed. *)
Lemma signed_urls_evicts :
  let first := hd "" many_urls in
  let st1 := (_encode_signed_url sample_self first sample_state).2 in
  let st129 := (sign_each sample_self (tl many_urls) st1).2 in
  bool_decide (NoDup many_urls) = true
  /\ is_ascii (first +:+ key_of sample_state sample_self) = true
  /\ LRU.find (sample_self, first) (signed_urls st1)
     = Some (first +:+ "&signature=871195596e10d8dc4b35b7eaa28d5fe239091cec")
  /\ LRU.find (sample_self, first) (signed_urls st129) = None
  /\ length (signed_urls st129) = 128%nat.
Proof. vm_compute. repeat split; reflexivity. Qed.

Lemma signed_urls_bounded_witness :
  let url := "http://api.gamejolt.com/api/game/v1/scores/tables/?format=json&game_id=123" in
  (length (signed_urls sample_state) <= 128)%nat
  /\ (length (signed_urls (_encode_signed_url sample_self url sample_state).2)
      <= 128)%nat.
Proof.
  intros url.
  assert (H : (length (signed_urls sample_state) <= 128)%nat)
    by (vm_compute; lia).
  split; [exact H|].
  exact (proj1 (signed_urls_bounded sample_state sample_self url H)).
Defined.

(** With [achieved=True] and [trophy_id=5] the request carries both. *)
Lemma trophies_fetch_sends_achieved :
  let r := trophies_fetch urljoin_dir sample_self (PBool true) (PInt 5) sample_state in
  let d := dicts r.2 !!! fresh_values sample_state in
  dict_get "trophy_id" d = Some (PInt 5)
  /\ dict_get "achieved" d = Some (PStr "true")
  /\ ~ (dict_get "trophy_id" d = Some (PInt 5) /\ dict_get "achieved" d = None)
  /\ queue_of r.2 sample_self
     = ["http://api.gamejolt.com/api/game/v1/trophies/?format=json&game_id=123&username=None&user_token=None&achieved=true&trophy_id=5&signature=b3a21b89a364c7f41a89ddd975cec2a83e3ba4d1"].
Proof.
  vm_compute. split; [reflexivity|]. split; [reflexivity|].
  split; [|reflexivity]. intros [_ H]. discriminate H.
Qed.

Lemma trophies_fetch_parameters_witness :
  initial_values sample_state sample_self
  /\ exists d,
      trophies_fetch urljoin_dir sample_self (PBool true) (PInt 5) sample_state
      = _submit sample_self "http://api.gamejolt.com/api/game/v1/trophies/"
          (fresh_values sample_state) (with_values sample_state d)
      /\ dict_get "trophy_id" d = Some (PInt 5)
      /\ dict_get "achieved" d = Some (PStr "true").
Proof.
  assert (H : initial_values sample_state sample_self) by (vm_compute; reflexivity).
  split; [exact H|].
  exact (trophies_fetch_parameters urljoin_dir sample_self (PBool true) (PInt 5)
           sample_state H).
Defined.

Lemma data_store_update_rejects_witness :
  let r := data_store_update urljoin_dir sample_self (PStr "coins")
             (PStr "invalid") (PInt 1) (PBool false) sample_state in
  r.1 = Raise (Exn AssertionError "") /\ r.2 = sample_state
  /\ queue_of r.2 sample_self = queue_of sample_state sample_self.
Proof.
  apply (data_store_update_rejects urljoin_dir sample_self (PStr "coins")
           (PStr "invalid") (PInt 1) (PBool false) sample_state).
  intros s Hs. simpl in Hs.
  repeat (destruct Hs as [<- | Hs]; [discriminate|]). destruct Hs.
Defined.

Lemma scores_add_identity_witness :
  (initial_values sample_state sample_self
   /\ exists d,
       scores_add urljoin_dir sample_self (PInt 5) PNone PNone sample_state
       = _submit sample_self "http://api.gamejolt.com/api/game/v1/scores/add/"
           (fresh_values sample_state) (with_values sample_state d)
       /\ dict_get "guest" d = Some (PStr "Guest")
       /\ dict_get "username" d = None
       /\ dict_get "user_token" d = None)
  /\ (initial_values player_state sample_self
      /\ exists d,
          scores_add urljoin_dir sample_self (PInt 5) PNone PNone player_state
          = _submit sample_self "http://api.gamejolt.com/api/game/v1/scores/add/"
              (fresh_values player_state) (with_values player_state d)
          /\ dict_get "username" d = Some (PStr "ann")
          /\ dict_get "user_token" d = Some (PStr "t0k3n")
          /\ dict_get "guest" d = None).
Proof.
  assert (H1 : initial_values sample_state sample_self) by (vm_compute; reflexivity).
  assert (H2 : initial_values player_state sample_self) by (vm_compute; reflexivity).
  split; (split; [assumption|]).
  - exact (scores_add_identity urljoin_dir sample_self (PInt 5) PNone PNone
             sample_state H1).
  - exact (scores_add_identity urljoin_dir sample_self (PInt 5) PNone PNone
             player_state H2).
Defined.

Lemma builders_leave_client_unchanged_witness :
  let st' := (call urljoin_dir sample_self Scores_tables sample_state).2 in
  is_Some (dicts sample_state !! _values (objects sample_state !!! sample_self))
  /\ client_fields (objects st' !!! sample_self)
     = client_fields (objects sample_state !!! sample_self)
  /\ dicts st' !! _values (objects sample_state !!! sample_self)
     = dicts sample_state !! _values (objects sample_state !!! sample_self).
Proof.
  intros st'.
  assert (H : is_Some (dicts sample_state
                       !! _values (objects sample_state !!! sample_self)))
    by (vm_compute; eauto).
  split; [exact H|].
  exact (builders_leave_client_unchanged urljoin_dir sample_self Scores_tables
           sample_state H).
Defined.

(** A refused connection and a body that is not JSON both come back as a
    failure mapping. *)
Example get_response_transport_error :
  _get_response (list Z)
    (urlopen_fail (Exn (LibraryError "URLError")
                       "<urlopen error [Errno 111] Connection refused>"))
    read_all (loads_table sample_documents)
    "http://api.gamejolt.com/api/game/v1/scores/?format=json&game_id=123&signature=0"
  = Return (JDict [("success", JStr "false");
                   ("error", JStr "<urlopen error [Errno 111] Connection refused>")]).
Proof. reflexivity. Qed.

Example get_response_malformed_body :
  _get_response (list Z) (urlopen_body (codes "<html>Bad Gateway</html>"))
    read_all (loads_table sample_documents)
    "http://api.gamejolt.com/api/game/v1/scores/?format=json&game_id=123&signature=0"
  = Return (JDict [("success", JStr "false");
                   ("error", JStr "Expecting value: line 1 column 1 (char 0)")]).
Proof. vm_compute. reflexivity. Qed.

Example get_response_missing_field :
  _get_response (list Z) (urlopen_body (codes body_no_response))
    read_all (loads_table sample_documents)
    "http://api.gamejolt.com/api/game/v1/scores/?format=json&game_id=123&signature=0"
  = Return (JDict [("success", JStr "false"); ("error", JStr "'response'")]).
Proof. vm_compute. reflexivity. Qed.

(** What the worker returns for a well-formed body is the ["response"] entry
    itself: here a mapping without [payload] whose [success] is a string, and
    a list. *)
Lemma get_response_not_tagged :
  let url := "http://api.gamejolt.com/api/game/v1/scores/?format=json&game_id=123&signature=0" in
  let get body :=
    _get_response (list Z) (urlopen_body (codes body)) read_all
      (loads_table sample_documents) url in
  get body_success
  = Return (JDict [("success", JStr "true"); ("message", JStr "ok")])
  /\ is_success_result (JDict [("success", JStr "true"); ("message", JStr "ok")])
     = false
  /\ get body_list = Return (JList [JInt 1; JInt 2])
  /\ is_success_result (JList [JInt 1; JInt 2]) = false.
Proof. vm_compute. repeat split; reflexivity. Qed.

Lemma get_response_returns_response_witness :
  let url := "http://api.gamejolt.com/api/game/v1/scores/?format=json&game_id=123&signature=0" in
  _get_response (list Z) (urlopen_body (codes body_success)) read_all
    (loads_table sample_documents) url
  = Return (JDict [("success", JStr "true"); ("message", JStr "ok")]).
Proof.
  intros url.
  apply (get_response_returns_response (list Z)
           (urlopen_body (codes body_success)) read_all
           (loads_table sample_documents) url (codes body_success)
           (codes body_success)
           [("response", JDict [("success", JStr "true"); ("message", JStr "ok")])]);
    vm_compute; reflexivity.
Defined.

(** ** Further properties on concrete inputs *)

Lemma sample_client_ok : client_ok sample_state sample_self.
Proof.
  split; [vm_compute; reflexivity|].
  split; [exact sample_coherent | vm_compute; lia].
Qed.

Lemma player_client_ok : client_ok player_state sample_self.
Proof.
  split; [vm_compute; reflexivity|].
  split; [apply coherent_empty; reflexivity | vm_compute; lia].
Qed.

Lemma run_keeps_clients_witness :
  let program :=
    [(sample_self, Scores_tables);
     (sample_self, Data_store_update (PStr "coins") (PStr "invalid") (PInt 1) PNone);
     (sample_self, Scores_add (PInt 5) PNone PNone)] in
  client_ok sample_state sample_self
  /\ client_ok (run urljoin_dir program sample_state) sample_self
  /\ client_fields (objects (run urljoin_dir program sample_state) !!! sample_self)
     = client_fields (objects sample_state !!! sample_self).
Proof.
  intros program. split; [exact sample_client_ok|].
  exact (run_keeps_clients urljoin_dir program sample_state sample_self
           sample_client_ok).
Defined.

Example run_queue :
  queue_of (run urljoin_dir
              [(sample_self, Scores_tables);
               (sample_self, Data_store_update (PStr "coins") (PStr "invalid")
                               (PInt 1) PNone);
               (sample_self, Scores_add (PInt 5) PNone PNone)]
              sample_state) sample_self
  = ["http://api.gamejolt.com/api/game/v1/scores/tables/?format=json&game_id=123&signature="
     +:+ signature "secret" "http://api.gamejolt.com/api/game/v1/scores/tables/?format=json&game_id=123";
     "http://api.gamejolt.com/api/game/v1/scores/add/?format=json&game_id=123&guest=Guest&sort=5&score=5&signature=3162363cc92d2af53b54fb8b071b3ded64179a50"].
Proof. vm_compute. reflexivity. Qed.

Lemma request_url_witness :
  let b := Scores_fetch (PInt 5) (PInt 3) in
  let r := call urljoin_dir sample_self b sample_state in
  client_ok sample_state sample_self
  /\ r.1 = Return O
  /\ exists query,
      let unsigned :=
        "http://api.gamejolt.com/api/game/v1/scores/?format=json&game_id=123"
        +:+ query in
      queue_of r.2 sample_self !! O
      = Some (unsigned +:+ "&signature=" +:+ signature "secret" unsigned)
      /\ is_ascii (unsigned +:+ "&signature=" +:+ signature "secret" unsigned) = true
      /\ (query = "" \/ exists parameters, query = "&" +:+ parameters).
Proof.
  intros b r.
  assert (H : r.1 = Return O) by (vm_compute; reflexivity).
  split; [exact sample_client_ok|]. split; [exact H|].
  exact (request_url urljoin_dir sample_self b sample_state O sample_client_ok H).
Defined.


Lemma encode_signed_url_again_witness :
  let url := "http://api.gamejolt.com/api/game/v1/scores/?format=json&game_id=123&limit=3&table_id=5" in
  let v := url +:+ "&signature=e0ebc145af1e45e7ff9c78a830c8569681de49e8" in
  let st' := (_encode_signed_url sample_self url sample_state).2 in
  _encode_signed_url sample_self url sample_state = (Return v, st')
  /\ head (signed_urls st') = Some ((sample_self, url), v)
  /\ _encode_signed_url sample_self url st' = (Return v, st').
Proof.
  intros url v st'.
  assert (H : _encode_signed_url sample_self url sample_state = (Return v, st'))
    by (vm_compute; reflexivity).
  split; [exact H|].
  destruct (encode_signed_url_again sample_state st' sample_self url v H)
    as (H1 & _ & H2).
  split; [exact H1 | exact H2].
Defined.

Lemma get_response_cases_witness :
  let url := "http://api.gamejolt.com/api/game/v1/scores/?format=json&game_id=123&signature=0" in
  let transport := urlopen_body (codes "<html>Bad Gateway</html>") in
  let loads := loads_table sample_documents in
  let result :=
    JDict [("success", JStr "false");
           ("error", JStr "Expecting value: line 1 column 1 (char 0)")] in
  _get_response (list Z) transport read_all loads url = Return result
  /\ ((exists r body d,
          transport url = Return r /\ read_all r = Return body
          /\ loads body = Return (JDict d)
          /\ json_get "response" d = Some result)
      \/ (exists e, fails (list Z) transport read_all loads url e
                    /\ result = failure e)).
Proof.
  intros url transport loads result.
  assert (H : _get_response (list Z) transport read_all loads url = Return result)
    by (vm_compute; reflexivity).
  split; [exact H|].
  exact (get_response_cases (list Z) transport read_all loads url result H).
Defined.

Lemma data_store_identity_witness :
  let b := Data_store_fetch (PStr "coins") (PBool true) in
  initial_values player_state sample_self
  /\ exists d,
      call urljoin_dir sample_self b player_state
      = _submit sample_self "http://api.gamejolt.com/api/game/v1/data-store/"
          (fresh_values player_state) (with_values player_state d)
      /\ dict_get "username" d = None /\ dict_get "user_token" d = None.
Proof.
  intros b. split; [exact (proj1 player_client_ok)|].
  exact (data_store_identity urljoin_dir sample_self b (PBool true) player_state
           eq_refl eq_refl (proj1 player_client_ok)).
Defined.

Lemma credentials_always_sent_witness :
  initial_values sample_state sample_self
  /\ exists d,
      call urljoin_dir sample_self Session_open sample_state
      = _submit sample_self "http://api.gamejolt.com/api/game/v1/sessions/open/"
          (fresh_values sample_state) (with_values sample_state d)
      /\ dict_get "username" d = Some PNone
      /\ dict_get "user_token" d = Some PNone
      /\ dict_get "guest" d = None.
Proof.
  split; [exact (proj1 sample_client_ok)|].
  exact (credentials_always_sent urljoin_dir sample_self Session_open sample_state
           eq_refl (proj1 sample_client_ok)).
Defined.

(** The request of [session_open] for a client without a player. *)
Example session_open_without_player :
  queue_of (session_open urljoin_dir sample_self sample_state).2 sample_self
  = ["http://api.gamejolt.com/api/game/v1/sessions/open/?format=json&game_id=123&username=None&user_token=None&signature="
     +:+ signature "secret" "http://api.gamejolt.com/api/game/v1/sessions/open/?format=json&game_id=123&username=None&user_token=None"].
Proof. vm_compute. reflexivity. Qed.

Lemma session_ping_status_witness :
  initial_values sample_state sample_self
  /\ exists d,
      session_ping urljoin_dir sample_self (PBool true) sample_state
      = _submit sample_self "http://api.gamejolt.com/api/game/v1/sessions/ping/"
          (fresh_values sample_state) (with_values sample_state d)
      /\ dict_get "status" d = Some (PStr "idle").
Proof.
  split; [exact (proj1 sample_client_ok)|].
  exact (session_ping_status urljoin_dir sample_self (PBool true) sample_state
           (proj1 sample_client_ok)).
Defined.

Lemma scores_fetch_parameters_witness :
  initial_values sample_state sample_self
  /\ exists d,
      scores_fetch urljoin_dir sample_self (PInt 0) (PInt 10) sample_state
      = _submit sample_self "http://api.gamejolt.com/api/game/v1/scores/"
          (fresh_values sample_state) (with_values sample_state d)
      /\ dict_get "limit" d = Some (PInt 10)
      /\ dict_get "table_id" d = None
      /\ dict_get "username" d = None
      /\ dict_get "user_token" d = None
      /\ dict_get "guest" d = None.
Proof.
  split; [exact (proj1 sample_client_ok)|].
  exact (scores_fetch_parameters urljoin_dir sample_self (PInt 0) (PInt 10)
           sample_state (proj1 sample_client_ok)).
Defined.

Lemma scores_add_parameters_witness :
  initial_values sample_state sample_self
  /\ exists d,
      scores_add urljoin_dir sample_self (PInt 5) (PInt 0) (PStr "") sample_state
      = _submit sample_self "http://api.gamejolt.com/api/game/v1/scores/add/"
          (fresh_values sample_state) (with_values sample_state d)
      /\ dict_get "sort" d = Some (PInt 5)
      /\ dict_get "score" d = Some (PInt 5)
      /\ dict_get "table_id" d = None.
Proof.
  split; [exact (proj1 sample_client_ok)|].
  exact (scores_add_parameters urljoin_dir sample_self (PInt 5) (PInt 0) (PStr "")
           sample_state (proj1 sample_client_ok)).
Defined.

Lemma data_store_update_parameters_witness :
  initial_values sample_state sample_self
  /\ exists d,
      data_store_update urljoin_dir sample_self (PStr "coins") (PStr "add")
        (PInt 1) PNone sample_state
      = _submit sample_self "http://api.gamejolt.com/api/game/v1/data-store/update/"
          (fresh_values sample_state) (with_values sample_state d)
      /\ dict_get "key" d = Some (PStr "coins")
      /\ dict_get "operation" d = Some (PStr "add")
      /\ dict_get "value" d = Some (PInt 1)
      /\ exists name, PStr "add" = PStr name /\ In name operations.
Proof.
  split; [exact (proj1 sample_client_ok)|].
  exact (data_store_update_parameters urljoin_dir sample_self (PStr "coins")
           (PStr "add") (PInt 1) PNone sample_state (proj1 sample_client_ok)
           eq_refl).
Defined.

Lemma scores_tables_request_witness :
  let r := scores_tables urljoin_dir sample_self sample_state in
  client_ok sample_state sample_self
  /\ r.1 = Return O
  /\ dicts r.2 = dicts sample_state
  /\ queue_of r.2 sample_self !! O
     = Some ("http://api.gamejolt.com/api/game/v1/scores/tables/?format=json&game_id=123&signature="
             +:+ signature "secret" "http://api.gamejolt.com/api/game/v1/scores/tables/?format=json&game_id=123").
Proof.
  intros r.
  assert (H : r.1 = Return O) by (vm_compute; reflexivity).
  split; [exact sample_client_ok|]. split; [exact H|].
  destruct (scores_tables_request urljoin_dir sample_self sample_state O
              sample_client_ok H) as (_ & H1 & H2).
  split; [exact H1 | exact H2].
Defined.
